(* ===== verification/_CoqProject ===== *)
-Q . S2P
Prelude.v
Config.v
JsParse.v
HassState.v
ValueMapper.v
ColorDeriver.v
ColorSpec.v
Render.v
Card.v
AsyncCard.v
