(* ===== verification/Prelude.v ===== *)
(** * Weighted Override Slider card: a verification development

    The program is one Lovelace custom element,
    [WeightedOverrideSliderCard] in
    src/python_scripts/weighted-override-slider-card.js.  A user drags a
    slider in [[slider_min, slider_max]].  On release, the card reads a
    numeric input entity and pulls its value towards [input_max] or
    [input_min] by the weight [|slider| / slider_max].  It writes the
    result to an output entity: [light.turn_on]/[turn_off] for a light,
    [input_number.set_value] otherwise.  Home Assistant pushes new state
    objects through the [hass] setter.  The card re-renders 500 ms after
    the last one (a debounce timer), unless a drag is in progress.  The
    slider takes its colour from a light's attributes.

    ** Files

    - [Prelude] (this file): the number model and the shared tactics,
      hint databases and lemmas.  JavaScript numbers are the type
      [num]: an exact rational, [NaN] or a signed infinity.  It has its
      operations in [js_scope] ([+ - * /], [<?], [<=?]), the equivalence
      [≡] (equal values), [Proper] instances for setoid rewriting, the
      tactics [q_cases] and [num_simpl], and the rewrite database
      [jsnan].  The class [Truthy] gives JavaScript truthiness on
      numbers, strings and [undefined], and [js_or] is [x || d].  The
      Prelude also holds [Math.round] as [num_round] and
      [star], the reflexive-transitive closure used for reachability.
    - [Config]: the configuration object, the checks of [setConfig]
      (lines 10-16) and the defaults [render] destructures
      (lines 118-134).
    - [JsParse]: the built-ins [parseFloat], [parseInt(s, 16)] and
      [slice] on ASCII strings, and the printer [hex2] of the colour
      literals [hexToRgb] reads.
    - [HassState]: [hass.states] as a [gmap] from entity ids to state
      objects with their light attributes.
    - [ValueMapper]: [calculateOutputValue] (lines 106-115) and the
      service call of the [change] handler (lines 294-308).  It also
      holds the abstract specification [override_spec] that the
      mapper refines.
    - [ColorDeriver]: [getLightColor], [hslToRgb] and [hexToRgb]
      (lines 30-104), and the CSS Color 4 reference HSL conversion
      [hsl_channel].
    - [ColorSpec]: the colour rules of the specification (section 4.3)
      as an abstract function [deriveColor] over a tagged appearance
      ([Appearance], in the order RGB > HS > XY > temperature).
    - [Render]: [render()] (lines 117-277) in its two halves around
      [await this.loadNoUiSlider()].  [render_begin] (lines 117-251)
      goes from the fields it reads to the placeholder or the markup
      it writes ([Pending]: style values, label, options, captured
      entities).  [render_resume] (lines 253-285) creates the slider
      ([Mounted], [created]) at the value current when it runs, and
      runs the [update] handler noUiSlider calls as soon as it is bound
      ([updated]: label and bar redrawn).  [render] is their
      composition with the library loaded.  The file also holds
      the connect-bar geometry [updateConnectElement].
    - [Card]: the element as a state machine.  The instance fields are
      the record [Card].  The browser around it is [World]: the pending
      timers with their due times, the clock, and the trace of
      observable effects (renders, service calls, thrown errors).  Each
      entry point is an [Event]: [setConfig], [connectedCallback], the
      [hass] setter, time passing (which fires due timers in creation
      order), and the slider's [start]/[update]/[change] handlers.
      [step] runs one event to completion, since JavaScript is
      single-threaded.  [reachable] is the closure of [step] from the
      constructor.  A render here is atomic (the library is loaded).
    - [AsyncCard]: the render with its [await], and [loadNoUiSlider]
      (lines 312-317).  [AWorld] adds to [World] the page's library
      ([LibState]: absent, import in flight, loaded, failed), a
      generation counter of the shadow root's markup, and the renders
      suspended on the import ([Suspended]).  The import's completion
      and failure are events ([AEvent]) that may come between any two
      events of the card.  [astep] dispatches them: [a_render] writes
      the markup, then mounts at once, waits, or rejects according to
      [loadNoUiSlider].  [import_done] resumes the waiting renders in
      order, each on the slider element it captured: the render whose
      markup is on screen mounts its slider; the others build theirs on
      detached elements, and only their [update] handlers reach the page
      ([relabel]).

    ** Theorems

    The claims are stated over all inputs; the one evaluated scenario
    of each is its witness.

    - Sync controller ([Card]):
      - during a drag, state updates and timers have no effect at all;
      - a burst of updates gives exactly one render, from the last
        update;
      - every reachable state has at most one pending timer, named by
        [_updateTimeout] and due within 500 ms;
      - drag end writes exactly once, the mapper's output, to the
        captured entity; from construction to the first write, the
        write is the configured entity's, for every configuration;
      - after [setConfig], a release before the next render writes the
        new configuration's output to the old output entity;
      - state updates never move the slider;
      - the degraded view recovers at the same override;
      - a mounted slider's label and connect bar always show one value;
      - a card attached before its first [hass] object fails its first
        render and recovers with the first update;
      - a drag start leaves the pending timer, which fires after a
        short drag and is lost during a long one;
      - reachable cards hold checked configurations.  The invariants
        are proved once for every property of the card's fields that
        each entry point keeps (Section [CardInvariant]).
    - Mapper ([ValueMapper]):
      - a refinement of [override_spec], the specification's single
        interpolation formula, computed with the same operations;
      - the neutral point and monotonicity in the slider;
      - behaviour on missing and zero [slider_max];
      - the clamping of the light write.
    - Colour ([ColorDeriver], [ColorSpec]):
      - [getLightColor] refines [deriveColor] wherever "present" and
        JavaScript truthiness agree;
      - integer channels in [[0, 255]];
      - hue/saturation lights shown white, a zero brightness taken as
        absent;
      - the [#rrggbb] round trip of [hexToRgb].
    - Render ([Render]): the connect bar runs from zero to the value
      within the track.
    - Asynchronous render ([AsyncCard]):
      - when the import completes, only the markup on screen gets its
        slider, at the value current then; over the placeholder every
        waiting render throws;
      - a failed import is final: no slider, and no write.

    ** What modelling showed

    - [calculateOutputValue] reads the raw configuration, so a missing
      [slider_max] gives [NaN]; [slider_max: 0] is accepted and gives
      non-finite output.
    - An asymmetric slider range never reaches [input_min].
    - A brightness of [0] counts as absent.
    - [hs_color] lights are shown white ([hslToRgb] is given lightness
      100).
    - A non-numeric input state turns the light on with a [NaN]
      brightness; a missing input entity throws at drag end.
    - The handlers keep the [output_entity] of the render that created
      them after [setConfig] changes it.
    - [start] does not cancel the pending timer (the specification
      says it does): after a short drag the timer still fires and
      re-renders.  A timer that fires during the drag is vetoed and
      lost, so neither the code nor the specification refreshes the
      display when a drag ends.
    - Attached before its first [hass] object, the card's first render
      fails reading [this._hass.states].
    - A render that waited for the library after its markup was
      replaced still creates its slider; its [update] handler rewrites
      the live label, or throws over the placeholder.
    - A failed import of the library is cached by the module map, so
      the card stays without a slider and never writes.

    ** Bounds and fuel

    - The timer delay is the code's 500 ms, and the clock is an
      integer number of ms.
    - The generation counter of [AsyncCard] is a natural number that
      only grows; [awf] bounds every waiting render's generation by
      it.
    - Byte-level facts ([parseInt16] on two hex digits) are checked
      exhaustively over the 256 values.

    ** Not modelled

    - IEEE-754 rounding of finite results and signed zero.  Finite
      numbers are exact rationals, so the development states no exact
      equality or bound that rounding could break (such as the output
      reaching [input_max] exactly); the equalities it does state
      compare the same operations, or hold after rounding to integers.
    - The CSS and HTML text of the shadow root: a render is its [View]
      (placeholder, markup without its slider, or mounted slider with
      the values the text interpolates).
    - The network fetch of the import: it is the two events
      [EvImportDone] and [EvImportFailed].  The [await] on a loaded
      library resumes at the next microtask checkpoint, which the
      model takes to come before any other event: no event source of
      the card runs microtasks in between.
    - noUiSlider itself: its events are inputs carrying the slider's
      value string.  When a slider is created, the value it reports to
      the [update] handler is taken to be its start value, as it is
      for a start on the step grid within the range with at most two
      decimals; noUiSlider's snapping of other start values is not
      modelled.  Events of a slider that a render has replaced (its
      drag-end listeners sit on the document) are not modelled: slider
      events reach the slider on screen.
    - [customElements.define], Unicode white space in [parseFloat],
      and configuration fields set to [null] (a field is present with
      a number, or absent). *)

From Stdlib Require Export QArith Qround Qabs Qminmax Lqa.
From stdpp Require Export base decidable strings gmap list.

(** ** JavaScript numbers

    The card computes with JavaScript numbers.  A number is modelled as
    an exact rational, or [NaN], or one of the two infinities.  Finite
    arithmetic is exact (IEEE-754 rounding of finite results is not
    modelled); the special values follow IEEE-754: [NaN] absorbs, a
    non-zero number divided by zero is an infinity, [0/0] and
    [Infinity * 0] are [NaN].  Signed zero is not modelled: every zero
    is [+0]. *)

Inductive num : Type :=
| Fin (q : Q)
| NaN
| Inf (neg : bool).

Declare Scope js_scope.
Delimit Scope js_scope with js.
Bind Scope js_scope with num.

Local Open Scope Q_scope.

(** Boolean order on [Q]. *)
Definition qltb (a b : Q) : bool := negb (Qle_bool b a).

(** [undefined] read as a number (a missing config field) is [NaN]. *)
Definition num_of_opt (o : option Q) : num :=
  match o with Some q => Fin q | None => NaN end.

Definition num_neg (x : num) : num :=
  match x with Fin a => Fin (- a) | NaN => NaN | Inf s => Inf (negb s) end.

Definition num_add (x y : num) : num :=
  match x, y with
  | Fin a, Fin b => Fin (a + b)
  | NaN, _ | _, NaN => NaN
  | Inf s, Inf t => if Bool.eqb s t then Inf s else NaN
  | Inf s, Fin _ | Fin _, Inf s => Inf s
  end.

Definition num_sub (x y : num) : num := num_add x (num_neg y).

Definition num_mul (x y : num) : num :=
  match x, y with
  | Fin a, Fin b => Fin (a * b)
  | NaN, _ | _, NaN => NaN
  | Inf s, Inf t => Inf (xorb s t)
  | Inf s, Fin b | Fin b, Inf s =>
      if Qeq_bool b 0 then NaN else Inf (xorb s (qltb b 0))
  end.

Definition num_div (x y : num) : num :=
  match x, y with
  | NaN, _ | _, NaN => NaN
  | Fin a, Fin b =>
      if Qeq_bool b 0 then (if Qeq_bool a 0 then NaN else Inf (qltb a 0))
      else Fin (a / b)
  | Fin _, Inf _ => Fin 0
  | Inf _, Inf _ => NaN
  | Inf s, Fin b => Inf (xorb s (qltb b 0))
  end.

(** [Math.abs] *)
Definition num_abs (x : num) : num :=
  match x with Fin a => Fin (Qabs a) | NaN => NaN | Inf _ => Inf false end.

(** The relational operators [<] and [<=]: false as soon as [NaN] is
    involved. *)
Definition num_lt (x y : num) : bool :=
  match x, y with
  | Fin a, Fin b => qltb a b
  | NaN, _ | _, NaN => false
  | Inf s, Inf t => s && negb t
  | Inf s, Fin _ => s
  | Fin _, Inf t => negb t
  end.

Definition num_le (x y : num) : bool :=
  match x, y with
  | NaN, _ | _, NaN => false
  | _, _ => negb (num_lt y x)
  end.

(** [Math.max] and [Math.min]: [NaN] if an argument is [NaN]. *)
Definition num_max (x y : num) : num :=
  match x, y with
  | NaN, _ | _, NaN => NaN
  | _, _ => if num_lt x y then y else x
  end.

Definition num_min (x y : num) : num :=
  match x, y with
  | NaN, _ | _, NaN => NaN
  | _, _ => if num_lt y x then y else x
  end.

(** [Math.round]: the nearest integer, halves rounded up. *)
Definition qround (a : Q) : Z := Qfloor (a + (1 # 2)).
Arguments qround : simpl never.
#[global] Arguments Qabs : simpl never.
#[global] Arguments Qeq : simpl never.
#[global] Arguments Qle : simpl never.
#[global] Arguments Qlt : simpl never.

Definition num_round (x : num) : num :=
  match x with Fin a => Fin (inject_Z (qround a)) | _ => x end.

(** Truncation towards zero, and the remainder operator [%]: the
    result has the sign of the dividend. *)
Definition qtrunc (a : Q) : Z :=
  if Qle_bool 0 a then Qfloor a else (- Qfloor (- a))%Z.
Arguments qtrunc : simpl never.

Definition num_rem (x y : num) : num :=
  match x, y with
  | Fin a, Fin b =>
      if Qeq_bool b 0 then NaN else Fin (a - b * inject_Z (qtrunc (a / b)))
  | Fin a, Inf _ => Fin a
  | _, _ => NaN
  end.

(** ** Truthiness

    JavaScript's [ToBoolean], as in [!x], [x ? a : b] and [x || d], on
    the values the card tests: [0], [NaN] and the empty string are
    falsy, and so is [undefined] ([None]). *)
Class Truthy (A : Type) := truthy : A -> bool.

Definition num_truthy (x : num) : bool :=
  match x with Fin a => negb (Qeq_bool a 0) | NaN => false | Inf _ => true end.

Definition str_truthy (s : string) : bool := negb (String.eqb s "").

#[export] Instance num_Truthy : Truthy num := num_truthy.
#[export] Instance string_Truthy : Truthy string := str_truthy.
#[export] Instance option_Truthy `{Truthy A} : Truthy (option A) :=
  fun o => match o with Some x => truthy x | None => false end.

(** [x || d], for an [x] that may be [undefined]. *)
Definition js_or `{Truthy A} (o : option A) (d : A) : A :=
  match o with Some x => if truthy x then x else d | None => d end.

(** Unfold the truthiness instances. *)
Ltac unfold_truthy :=
  unfold js_or, truthy, option_Truthy, num_Truthy, string_Truthy, num_truthy, str_truthy in *.

Notation "- x" := (num_neg x) : js_scope.
Infix "+" := num_add : js_scope.
Infix "-" := num_sub : js_scope.
Infix "*" := num_mul : js_scope.
Infix "/" := num_div : js_scope.
Infix "<?" := num_lt (at level 70) : js_scope.
Infix "<=?" := num_le (at level 70) : js_scope.

(** A colour channel as [rgb(...)] receives it: an integer in [[0, 255]]. *)
Definition channel_ok (x : num) : Prop :=
  exists z : Z, x = Fin (inject_Z z) /\ (0 <= z <= 255)%Z.

(** Zero or more transitions of a relation [R]. *)
Inductive star {A : Type} (R : A -> A -> Prop) : A -> A -> Prop :=
| star_refl a : star R a a
| star_step a b c : R a b -> star R b c -> star R a c.

(** ** Equivalence of numbers

    Two finite numbers are equivalent when their rationals are equal
    ([Qeq]); [NaN] is equivalent to itself (the model's notion of "the
    same value", not JavaScript's [===]). *)

Definition num_eqv (x y : num) : Prop :=
  match x, y with
  | Fin a, Fin b => a == b
  | NaN, NaN => True
  | Inf s, Inf t => s = t
  | _, _ => False
  end.

#[export] Instance num_equiv : Equiv num := num_eqv.

#[export] Instance num_equivalence : Equivalence (≡@{num}).
Proof.
  split.
  - intros [a| |s]; cbn; reflexivity.
  - intros [a| |s] [b| |t]; cbn; try done; intros H; symmetry; exact H.
  - intros [a| |s] [b| |t] [c| |u]; cbn; try done;
      intros H1 H2; etransitivity; eauto.
Qed.

Definition num_eqb (x y : num) : bool :=
  match x, y with
  | Fin a, Fin b => Qeq_bool a b
  | NaN, NaN => true
  | Inf s, Inf t => Bool.eqb s t
  | _, _ => false
  end.

Lemma num_eqb_spec x y : num_eqb x y = true <-> x ≡ y.
Proof.
  destruct x as [a| |s], y as [b| |t]; cbn; try (split; done).
  - apply Qeq_bool_iff.
  - apply Bool.eqb_true_iff.
Qed.

#[export] Instance num_equiv_dec : RelDecision (≡@{num}).
Proof.
  intros x y. destruct (num_eqb x y) eqn:E.
  - left. by apply num_eqb_spec.
  - right. intros H%num_eqb_spec. congruence.
Defined.

Lemma Fin_equiv a b : Fin a ≡ Fin b <-> a == b.
Proof. done. Qed.

(** ** Reflection of the boolean tests on [Q] *)

Lemma qltb_spec a b : reflect (a < b) (qltb a b).
Proof.
  unfold qltb. destruct (Qle_bool b a) eqn:E; constructor.
  - apply Qle_bool_iff in E. lra.
  - destruct (Qlt_le_dec a b) as [Hlt|Hba%Qle_bool_iff]; [done | congruence].
Qed.

Lemma Qeq_bool_spec a b : reflect (a == b) (Qeq_bool a b).
Proof.
  destruct (Qeq_bool a b) eqn:E; constructor.
  - by apply Qeq_bool_iff.
  - by apply Qeq_bool_neq.
Qed.

#[export] Instance qltb_proper : Proper (Qeq ==> Qeq ==> eq) qltb.
Proof.
  intros a a' Ha b b' Hb.
  destruct (qltb_spec a b), (qltb_spec a' b'); auto; exfalso; lra.
Qed.

#[export] Instance qround_proper : Proper (Qeq ==> eq) qround.
Proof. intros a b H. unfold qround. apply Qfloor_comp. by rewrite H. Qed.

(** Case analysis on the boolean tests on [Q] in the goal. *)
Ltac q_cases :=
  repeat match goal with
  | |- context [qltb ?a ?b] => destruct (qltb_spec a b); try (exfalso; lra)
  | |- context [Qeq_bool ?a ?b] => destruct (Qeq_bool_spec a b); try (exfalso; lra)
  end.

(** Compute the number operations on finite arguments, splitting on
    the rational tests they make. *)
Ltac num_simpl := repeat progress (cbn; q_cases).

(** Rewrite with every rational equation of the context. *)
Ltac rewrite_Qeq :=
  repeat match goal with Hq : _ == _ |- _ => rewrite Hq; clear Hq end.

(** The [Proper] proofs of the number operations: split on every
    rational test, refute the inconsistent branches with [lra], and
    close the others by rewriting with the equations. *)
Ltac num_proper_tac :=
  cbn in *; subst; try done; q_cases; repeat case_match; cbn;
  try done; try lra; rewrite_Qeq; done.

#[export] Instance Fin_proper : Proper (Qeq ==> (≡)) Fin.
Proof. intros a b H. exact H. Qed.

#[export] Instance num_neg_proper : Proper ((≡) ==> (≡)) num_neg.
Proof. intros [a| |s] [b| |t] H; num_proper_tac. Qed.

#[export] Instance num_add_proper : Proper ((≡) ==> (≡) ==> (≡)) num_add.
Proof. intros [a| |s] [b| |t] H [c| |u] [d| |v] H'; num_proper_tac. Qed.

#[export] Instance num_sub_proper : Proper ((≡) ==> (≡) ==> (≡)) num_sub.
Proof. intros x y H x' y' H'. unfold num_sub. by rewrite H, H'. Qed.

#[export] Instance num_mul_proper : Proper ((≡) ==> (≡) ==> (≡)) num_mul.
Proof. intros [a| |s] [b| |t] H [c| |u] [d| |v] H'; num_proper_tac. Qed.

#[export] Instance num_div_proper : Proper ((≡) ==> (≡) ==> (≡)) num_div.
Proof. intros [a| |s] [b| |t] H [c| |u] [d| |v] H'; num_proper_tac. Qed.

#[export] Instance num_abs_proper : Proper ((≡) ==> (≡)) num_abs.
Proof. intros [a| |s] [b| |t] H; num_proper_tac. Qed.

#[export] Instance num_lt_proper : Proper ((≡) ==> (≡) ==> eq) num_lt.
Proof. intros [a| |s] [b| |t] H [c| |u] [d| |v] H'; num_proper_tac. Qed.

#[export] Instance num_le_proper : Proper ((≡) ==> (≡) ==> eq) num_le.
Proof. intros [a| |s] [b| |t] H [c| |u] [d| |v] H'; num_proper_tac. Qed.

#[export] Instance num_max_proper : Proper ((≡) ==> (≡) ==> (≡)) num_max.
Proof. intros [a| |s] [b| |t] H [c| |u] [d| |v] H'; num_proper_tac. Qed.

#[export] Instance num_min_proper : Proper ((≡) ==> (≡) ==> (≡)) num_min.
Proof. intros [a| |s] [b| |t] H [c| |u] [d| |v] H'; num_proper_tac. Qed.

#[export] Instance num_round_proper : Proper ((≡) ==> (≡)) num_round.
Proof. intros [a| |s] [b| |t] H; num_proper_tac. Qed.

#[export] Instance num_truthy_proper : Proper ((≡) ==> eq) num_truthy.
Proof. intros [a| |s] [b| |t] H; num_proper_tac. Qed.

(** ** Finite operands *)

(** Division and remainder by a non-zero finite number. *)
Lemma num_div_Fin a b : ~ b == 0 -> (Fin a / Fin b)%js = Fin (a / b).
Proof. intros Hb. cbn. by destruct (Qeq_bool_spec b 0). Qed.

(** ** Floors, minima and maxima *)

#[global] Arguments Qmin : simpl never.
#[global] Arguments Qmax : simpl never.
#[global] Arguments Qfloor : simpl never.

Lemma Qfloor_eq (a : Q) (z : Z) : inject_Z z <= a < inject_Z z + 1 -> Qfloor a = z.
Proof.
  intros [Hlo Hhi]. pose proof (Qfloor_le a). pose proof (Qlt_floor a).
  rewrite inject_Z_plus in *. change (inject_Z 1) with 1 in *.
  assert (inject_Z (Qfloor a) < inject_Z (z + 1))
    by (rewrite inject_Z_plus; change (inject_Z 1) with 1; lra).
  assert (inject_Z z < inject_Z (Qfloor a + 1))
    by (rewrite inject_Z_plus; change (inject_Z 1) with 1; lra).
  rewrite <- Zlt_Qlt in *. lia.
Qed.

Lemma qtrunc_nonneg (a : Q) : 0 <= a -> qtrunc a = Qfloor a.
Proof. intros Ha. unfold qtrunc. apply Qle_bool_iff in Ha. by rewrite Ha. Qed.

(** [lra] after turning the divisions by constants into products. *)
Ltac qlra := unfold Qdiv, inject_Z in *; cbn [Qinv Qnum Qden] in *; lra.

(** Resolve every [Qfloor], [qtrunc], [Qabs], [Qmin] and [Qmax] whose
    case [qlra] decides from the context, innermost first. *)
Ltac q_resolve :=
  repeat match goal with
  | |- context [qtrunc ?a] => rewrite (qtrunc_nonneg a) by qlra
  | |- context [Qfloor ?a] =>
      first [ rewrite (Qfloor_eq a 0) by qlra | rewrite (Qfloor_eq a 1) by qlra
            | rewrite (Qfloor_eq a 2) by qlra ]
  | |- context [Qabs ?a] => first [rewrite (Qabs_pos a) by qlra | rewrite (Qabs_neg a) by qlra]
  | |- context [Qmin ?x ?y] => first [rewrite (Q.min_l x y) by qlra | rewrite (Q.min_r x y) by qlra]
  | |- context [Qmax ?x ?y] => first [rewrite (Q.max_l x y) by qlra | rewrite (Q.max_r x y) by qlra]
  end.

(** ** [NaN] absorbs

    The rewriting database [jsnan] propagates [NaN] through the
    arithmetic operations. *)

Create Rewrite HintDb jsnan.

Lemma num_add_NaN_l x : num_add NaN x = NaN.
Proof. done. Qed.
Lemma num_add_NaN_r x : num_add x NaN = NaN.
Proof. by destruct x. Qed.
Lemma num_neg_NaN : num_neg NaN = NaN.
Proof. done. Qed.
Lemma num_sub_NaN_l x : num_sub NaN x = NaN.
Proof. done. Qed.
Lemma num_sub_NaN_r x : num_sub x NaN = NaN.
Proof. by destruct x. Qed.
Lemma num_mul_NaN_l x : num_mul NaN x = NaN.
Proof. done. Qed.
Lemma num_mul_NaN_r x : num_mul x NaN = NaN.
Proof. by destruct x. Qed.
Lemma num_div_NaN_l x : num_div NaN x = NaN.
Proof. done. Qed.
Lemma num_div_NaN_r x : num_div x NaN = NaN.
Proof. by destruct x. Qed.
Lemma num_abs_NaN : num_abs NaN = NaN.
Proof. done. Qed.
Lemma num_round_NaN : num_round NaN = NaN.
Proof. done. Qed.

#[export] Hint Rewrite num_add_NaN_l num_add_NaN_r num_neg_NaN num_sub_NaN_l
  num_sub_NaN_r num_mul_NaN_l num_mul_NaN_r num_div_NaN_l num_div_NaN_r
  num_abs_NaN num_round_NaN : jsnan.

(** ** Rounding *)

(** [Math.round] keeps a value between two integers between them. *)
Lemma qround_range (lo hi : Z) (v : Q) :
  inject_Z lo <= v <= inject_Z hi -> (lo <= qround v <= hi)%Z.
Proof.
  intros [Hlo Hhi]. unfold qround.
  pose proof (Qfloor_le (v + (1 # 2))) as Hle.
  pose proof (Qlt_floor (v + (1 # 2))) as Hlt.
  set (k := Qfloor (v + (1 # 2))) in *. clearbody k.
  rewrite inject_Z_plus in Hlt. split.
  - destruct (Z_lt_le_dec k lo) as [Hk|]; [|done].
    assert (inject_Z (k + 1) <= inject_Z lo) as Hk'
      by (rewrite <- Zle_Qle; lia).
    rewrite inject_Z_plus in Hk'. lra.
  - destruct (Z_lt_le_dec hi k) as [Hk|]; [|done].
    assert (inject_Z (hi + 1) <= inject_Z k) as Hk'
      by (rewrite <- Zle_Qle; lia).
    rewrite inject_Z_plus in Hk'. change (inject_Z 1) with 1 in *. lra.
Qed.

Lemma channel_ok_round (x : num) (v : Q) :
  x ≡ Fin v -> 0 <= v <= 255 -> channel_ok (num_round x).
Proof.
  destruct x as [a| |]; cbn; try done. intros Hav Hv.
  exists (qround a). split; [done|].
  apply qround_range. unfold inject_Z. rewrite Hav. lra.
Qed.

Create HintDb jsnum.
#[export] Hint Resolve channel_ok_round : jsnum.

(** ** Sequences of transitions *)

Section Star.
Context {A : Type} (R : A -> A -> Prop).

Lemma star_trans a b c : star R a b -> star R b c -> star R a c.
Proof. induction 1; eauto using star. Qed.

Lemma star_right a b c : star R a b -> R b c -> star R a c.
Proof. intros Hab Hbc. eapply star_trans; eauto using star. Qed.

(** An invariant of the transitions holds along every sequence. *)
Lemma star_invariant (P : A -> Prop) a b :
  (forall x y, P x -> R x y -> P y) -> P a -> star R a b -> P b.
Proof. intros Hstep Ha Hab. induction Hab; eauto. Qed.
End Star.

#[export] Hint Constructors star : jsnum.
