(* ===== verification/Config.v ===== *)
(** * The card configuration

    The YAML configuration object of the card ([this.config] in
    src/python_scripts/weighted-override-slider-card.js), the checks
    [setConfig] makes on it, and the defaults that [render] fills in by
    destructuring.  A field the user leaves out is [None] ([undefined]
    in JavaScript); numeric fields come from YAML and are finite. *)

From S2P Require Import Prelude.

Record CardConfig : Type := {
  output_entity : option string;
  input_entity : option string;
  color_entity : option string;
  slider_min : option Q;
  slider_max : option Q;
  input_min : option Q;
  input_max : option Q;
  step : option Q;
  name : option string;
  unit : option string;
  icon : option string;
  handle_color : option string;
  handle_shadow_color : option string;
  slider_color : option string;
  slider_background_color : option string;
  initial_slider_value : option Q
}.

(** The errors [setConfig] throws. *)
Inductive ConfigError : Type :=
| MissingOutputEntity
| MissingInputEntity.

(** [setConfig], lines 11-12: the two required fields must be truthy
    (present and not the empty string), checked in this order. *)
Definition check_config (c : CardConfig) : option ConfigError :=
  if negb (truthy (output_entity c)) then Some MissingOutputEntity
  else if negb (truthy (input_entity c)) then Some MissingInputEntity
  else None.

(** [config.output_entity.startsWith('light.')], line 14. *)
Definition is_light_entity (c : CardConfig) : bool :=
  match output_entity c with
  | Some e => String.prefix "light." e
  | None => false
  end.

(** [config.initial_slider_value || 0], line 15. *)
Definition initial_slider (c : CardConfig) : num :=
  js_or (Fin <$> initial_slider_value c) (Fin 0).

(** The values [render] destructures from [this.config], lines 118-134:
    a default replaces a field only when it is [undefined]. *)
Record Resolved : Type := {
  r_output_entity : option string;
  r_input_entity : option string;
  r_color_entity : option string;
  r_slider_min : Q;
  r_slider_max : Q;
  r_input_min : Q;
  r_input_max : Q;
  r_step : Q;
  r_name : string;
  r_unit : string;
  r_icon : option string;
  r_handle_color : string;
  r_handle_shadow_color : string;
  r_slider_color : string;
  r_slider_background_color : string
}.

Definition resolve (c : CardConfig) : Resolved := {|
  r_output_entity := output_entity c;
  r_input_entity := input_entity c;
  r_color_entity := color_entity c;
  r_slider_min := default (-100)%Q (slider_min c);
  r_slider_max := default 100%Q (slider_max c);
  r_input_min := default (-100)%Q (input_min c);
  r_input_max := default 100%Q (input_max c);
  r_step := default 1%Q (step c);
  r_name := default "Slider" (name c);
  r_unit := default "%" (unit c);
  r_icon := icon c;
  r_handle_color := default "#ffffff" (handle_color c);
  r_handle_shadow_color := default "#1c1c1c" (handle_shadow_color c);
  r_slider_color := default "#4473a0" (slider_color c);
  r_slider_background_color := default "#323232" (slider_background_color c)
|}.

(** The configuration of the end-to-end scenario of the specification:
    a light driven by a sensor, slider range [[-100, 100]], input range
    [[0, 100]]. *)
Definition example_config : CardConfig := {|
  output_entity := Some "light.living_room"; input_entity := Some "sensor.lux";
  color_entity := None; slider_min := Some (-100)%Q; slider_max := Some 100%Q;
  input_min := Some 0%Q; input_max := Some 100%Q; step := None; name := None;
  unit := None; icon := None; handle_color := None; handle_shadow_color := None;
  slider_color := None; slider_background_color := None;
  initial_slider_value := None |}.

(** The same with [slider_max: 0], which [setConfig] accepts. *)
Definition zero_max_config : CardConfig :=
  {| output_entity := Some "input_number.target"; input_entity := Some "sensor.lux";
     color_entity := None; slider_min := Some (-100)%Q; slider_max := Some 0%Q;
     input_min := Some 0%Q; input_max := Some 100%Q; step := None; name := None;
     unit := None; icon := None; handle_color := None; handle_shadow_color := None;
     slider_color := None; slider_background_color := None;
     initial_slider_value := None |}.

(** Only the two required fields: every numeric field is left out. *)
Definition minimal_config : CardConfig :=
  {| output_entity := Some "light.living_room"; input_entity := Some "sensor.lux";
     color_entity := None; slider_min := None; slider_max := None;
     input_min := None; input_max := None; step := None; name := None;
     unit := None; icon := None; handle_color := None; handle_shadow_color := None;
     slider_color := None; slider_background_color := None;
     initial_slider_value := None |}.

(** A configuration whose slider follows the colour of a lamp. *)
Definition color_config : CardConfig :=
  {| output_entity := Some "light.living_room"; input_entity := Some "sensor.lux";
     color_entity := Some "light.lamp"; slider_min := Some (-100)%Q;
     slider_max := Some 100%Q; input_min := Some 0%Q; input_max := Some 100%Q;
     step := None; name := None; unit := None; icon := None; handle_color := None;
     handle_shadow_color := None; slider_color := None;
     slider_background_color := None; initial_slider_value := None |}.

(** The end-to-end configuration with a generic numeric target. *)
Definition example_number_config : CardConfig :=
  {| output_entity := Some "input_number.target"; input_entity := Some "sensor.lux";
     color_entity := None; slider_min := Some (-100)%Q; slider_max := Some 100%Q;
     input_min := Some 0%Q; input_max := Some 100%Q; step := None; name := None;
     unit := None; icon := None; handle_color := None; handle_shadow_color := None;
     slider_color := None; slider_background_color := None;
     initial_slider_value := None |}.
