(* ===== verification/JsParse.v ===== *)
(** * JavaScript string built-ins the card calls

    [String.prototype.slice], [parseInt(s, 16)] (used by [hexToRgb]) and
    [parseFloat] (used on the slider's values and on the input entity's
    state), following the ECMAScript algorithms on ASCII strings.  The
    white space they skip is the ASCII white space (tab, line feed,
    vertical tab, form feed, carriage return, space); the Unicode space
    separators are not modelled.  The printer [hex2] produces the colour
    literals [hexToRgb] reads, to state its round trip. *)

From S2P Require Import Prelude.
From Stdlib Require Import Ascii.
From Stdlib Require String.

Local Open Scope Z_scope.

(** ** Characters *)

Definition is_js_space (c : ascii) : bool :=
  let n := nat_of_ascii c in
  ((9 <=? n) && (n <=? 13))%nat || (n =? 32)%nat.

Fixpoint trim_start (cs : list ascii) : list ascii :=
  match cs with
  | c :: r => if is_js_space c then trim_start r else cs
  | [] => []
  end.

(** The value of a digit in radix 16 (either case), if it is one. *)
Definition hex_digit_value (c : ascii) : option Z :=
  let n := Z.of_nat (nat_of_ascii c) in
  if (48 <=? n) && (n <=? 57) then Some (n - 48)
  else if (97 <=? n) && (n <=? 102) then Some (n - 87)
  else if (65 <=? n) && (n <=? 70) then Some (n - 55)
  else None.

Definition dec_digit_value (c : ascii) : option Z :=
  let n := Z.of_nat (nat_of_ascii c) in
  if (48 <=? n) && (n <=? 57) then Some (n - 48) else None.

(** The longest prefix of digits (by [dv]) and the rest. *)
Fixpoint take_digits (dv : ascii -> option Z) (cs : list ascii) : list Z * list ascii :=
  match cs with
  | c :: r =>
      match dv c with
      | Some d => let '(ds, rest) := take_digits dv r in (d :: ds, rest)
      | None => ([], cs)
      end
  | [] => ([], [])
  end.

(** The value of a digit sequence in radix [b], most significant first. *)
Definition digits_value (b : Z) (ds : list Z) : Z :=
  fold_left (fun acc d => acc * b + d) ds 0.

(** ** [s.slice(i, j)] for [0 <= i <= j] *)
Definition js_slice (s : string) (i j : nat) : string :=
  String.substring i (j - i) s.

(** ** [parseInt(s, 16)] *)
Definition parseInt16 (s : string) : num :=
  let cs := trim_start (String.list_ascii_of_string s) in
  let '(sign, cs1) :=
    match cs with
    | "-"%char :: r => ((-1)%Q, r)
    | "+"%char :: r => (1%Q, r)
    | _ => (1%Q, cs)
    end in
  let cs2 :=
    match cs1 with
    | "0"%char :: ("x"%char | "X"%char) :: r => r
    | _ => cs1
    end in
  match take_digits hex_digit_value cs2 with
  | ([], _) => NaN
  | (ds, _) => Fin (sign * inject_Z (digits_value 16 ds))
  end.

(** ** [parseFloat(s)] *)

(** [p] is a prefix of [cs]. *)
Fixpoint ascii_prefix (p cs : list ascii) : bool :=
  match p, cs with
  | [], _ => true
  | a :: p', c :: cs' => Ascii.eqb a c && ascii_prefix p' cs'
  | _ :: _, [] => false
  end.

(** The optional exponent part [e[+-]digits]; without digits after the
    sign it is not part of the literal and counts as [0]. *)
Definition parse_exponent (cs : list ascii) : Z :=
  match cs with
  | c :: r =>
      if Ascii.eqb c "e" || Ascii.eqb c "E" then
        let '(sg, r') :=
          match r with
          | "+"%char :: t => (1, t)
          | "-"%char :: t => (-1, t)
          | _ => (1, r)
          end in
        match take_digits dec_digit_value r' with
        | ([], _) => 0
        | (ds, _) => sg * digits_value 10 ds
        end
      else 0
  | [] => 0
  end.

(** The longest prefix that is an unsigned decimal literal: [Infinity],
    or digits with an optional fraction and exponent (at least one digit
    before or after the point). *)
Definition parse_unsigned_decimal (cs : list ascii) : num :=
  if ascii_prefix (String.list_ascii_of_string "Infinity") cs then Inf false
  else
    let '(ids, r1) := take_digits dec_digit_value cs in
    let '(fds, r2) :=
      match r1 with
      | "."%char :: t => take_digits dec_digit_value t
      | _ => ([], r1)
      end in
    match ids, fds with
    | [], [] => NaN
    | _, _ =>
        Fin (inject_Z (digits_value 10 (ids ++ fds)) *
             Qpower (inject_Z 10) (parse_exponent r2 - Z.of_nat (length fds)))
    end.

(** An optional sign, then the unsigned literal. *)
Definition parse_signed (cs : list ascii) : num :=
  match cs with
  | "-"%char :: r => num_neg (parse_unsigned_decimal r)
  | "+"%char :: r => parse_unsigned_decimal r
  | _ => parse_unsigned_decimal cs
  end.

Definition parseFloat (s : string) : num :=
  parse_signed (trim_start (String.list_ascii_of_string s)).

(** ** Printers *)

(** The lower-case hexadecimal digit of [0 <= d < 16]. *)
Definition hex_char (d : Z) : ascii :=
  if d <? 10 then ascii_of_nat (Z.to_nat (48 + d))
  else ascii_of_nat (Z.to_nat (87 + d)).

(** Two hexadecimal digits of a byte, as in the colour literal ["#fec007"]. *)
Definition hex2 (n : Z) : string :=
  String.string_of_list_ascii [hex_char (n / 16); hex_char (n mod 16)].

(** A colour literal ["#rrggbb"]. *)
Definition hex_color (r g b : Z) : string :=
  String.append "#" (String.append (hex2 r) (String.append (hex2 g) (hex2 b))).
