(* ===== verification/HassState.v ===== *)
(** * Home Assistant state objects

    What the card reads from [this._hass]: the map [hass.states] from
    entity ids to state objects, each with its [state] string and the
    light attributes [getLightColor] inspects.  Values come from Home
    Assistant's JSON, so the numbers in them are finite; an attribute
    that is absent or [null] is [None]. *)

From S2P Require Import Prelude.

Record LightAttributes : Type := {
  brightness : option Q;
  rgb_color : option (Q * Q * Q);
  hs_color : option (Q * Q);
  xy_color : option (Q * Q);
  color_temp : option Q
}.

Definition no_attributes : LightAttributes := {|
  brightness := None; rgb_color := None; hs_color := None;
  xy_color := None; color_temp := None |}.

Record EntityState : Type := {
  state : string;
  attributes : LightAttributes
}.

(** The [hass] object handed to the card's [hass] setter. *)
Record Hass : Type := {
  states : gmap string EntityState
}.

(** The lamp of the specification's examples: on, RGB [(200, 100, 50)],
    with the given brightness. *)
Definition rgb_lamp (br : option Q) : EntityState := {|
  state := "on";
  attributes := {| brightness := br; rgb_color := Some (200, 100, 50)%Q;
                   hs_color := None; xy_color := None; color_temp := None |} |}.

(** A lamp in hue/saturation mode: pure red at half brightness. *)
Definition hs_lamp : EntityState := {|
  state := "on";
  attributes := {| brightness := Some 128%Q; rgb_color := None;
                   hs_color := Some (0, 100)%Q; xy_color := None; color_temp := None |} |}.

(** [hass.states] with the lamp as [light.lamp] and the input sensor. *)
Definition lamp_states (lamp : EntityState) : gmap string EntityState :=
  <["light.lamp" := lamp]> (<["sensor.lux" := {| state := "40"; attributes := no_attributes |}]> ∅).

(** A [hass] object whose input sensor reads the given state. *)
Definition hass_with_input (s : string) : Hass :=
  {| states := <["sensor.lux" := {| state := s; attributes := no_attributes |}]> ∅ |}.

(** A [hass] object without the input sensor. *)
Definition hass_without_input : Hass := {| states := ∅ |}.
