(* ===== verification/ValueMapper.v ===== *)
(** * The value mapper

    [calculateOutputValue] (lines 106-115) over JavaScript numbers, and
    the write command the slider's [change] handler issues with its
    result (lines 294-308).  The abstract specification
    [override_spec] is the interpolation the spec describes: from the
    input value towards [input_max] (slider right of zero) or
    [input_min] (left of zero), by the weight [|slider| / slider_max].
    [calc_refines_spec] shows the code's three branches implement it
    whenever the three config fields it reads are set and
    [slider_max <> 0]. *)

From S2P Require Import Prelude Config.
From Stdlib Require Import Psatz.

Local Open Scope Q_scope.

(** ** The code *)

(** [calculateOutputValue(sliderValue, inputValue)]: reads
    [this.config.slider_max], [input_max] and [input_min] directly, not
    the defaults [render] computes. *)
Definition calculateOutputValue (cfg : CardConfig) (sliderValue inputValue : num)
    : num :=
  let weight := (num_abs sliderValue / num_of_opt (slider_max cfg))%js in
  if (Fin 0 <? sliderValue)%js then
    (inputValue + (num_of_opt (input_max cfg) - inputValue) * weight)%js
  else if (sliderValue <? Fin 0)%js then
    (inputValue - (inputValue - num_of_opt (input_min cfg)) * weight)%js
  else inputValue.

(** The two Home Assistant services the card calls, with their data. *)
Inductive ServiceCall : Type :=
| LightTurnOff (entity_id : string)
| LightTurnOn (entity_id : string) (brightness_pct : num)
| InputNumberSetValue (entity_id : string) (value : num).

(** The write of the [change] handler, lines 294-308. *)
Definition output_service_call (isLight : bool) (output_entity : string)
    (outputValue : num) : ServiceCall :=
  if isLight then
    if (outputValue <=? Fin 0)%js then LightTurnOff output_entity
    else LightTurnOn output_entity
           (num_min (Fin 100) (num_max (Fin 0) outputValue))
  else InputNumberSetValue output_entity outputValue.

(** ** The abstract specification *)

(** The bound the override pulls towards. *)
Definition override_target (input_min input_max a : Q) : Q :=
  if qltb 0 a then input_max else input_min.

(** Linear interpolation from [x] towards the target by the weight
    [|a| / slider_max]. *)
Definition override_spec (slider_max input_min input_max a x : Q) : Q :=
  x + (override_target input_min input_max a - x) * (Qabs a / slider_max).

(** A number is finite. *)
Definition is_finite (x : num) : bool :=
  match x with Fin _ => true | _ => false end.

(** ** Lemmas on the interpolation *)

(** ** The code on finite arguments *)

Section FiniteBranches.
Context (cfg : CardConfig) (m x : Q).
Hypothesis Hmax : slider_max cfg = Some m.
Hypothesis Hm : ~ m == 0.

(** Slider right of zero: interpolation towards [input_max]. *)
Lemma calc_pos_branch (a hi : Q) :
  0 < a -> input_max cfg = Some hi ->
  calculateOutputValue cfg (Fin a) (Fin x) ≡ Fin (x + (hi - x) * (a / m)).
Proof.
  intros Ha Hhi. unfold calculateOutputValue. rewrite Hmax, Hhi. cbn.
  q_cases; try lra; try contradiction; cbn;
    rewrite Qabs_pos by lra; unfold Qminus; reflexivity.
Qed.

(** Slider left of zero: interpolation towards [input_min]. *)
Lemma calc_neg_branch (a lo : Q) :
  a < 0 -> input_min cfg = Some lo ->
  calculateOutputValue cfg (Fin a) (Fin x) ≡ Fin (x + (lo - x) * (- a / m)).
Proof.
  intros Ha Hlo. unfold calculateOutputValue. rewrite Hmax, Hlo. cbn.
  q_cases; try lra; try contradiction; cbn;
    rewrite Qabs_neg by lra; unfold Qdiv; ring.
Qed.
End FiniteBranches.

(** ** Properties of [calculateOutputValue] *)

(** The neutral branch: a zero slider returns the input. *)
Lemma calc_at_zero (cfg : CardConfig) (s x : num) :
  s ≡ Fin 0 -> calculateOutputValue cfg s x = x.
Proof.
  destruct s as [a| |]; cbn; try done. intros Ha.
  unfold calculateOutputValue. cbn. q_cases; try lra. done.
Qed.

(** C6: At the neutral slider position the input value passes through
    unchanged, whatever the configuration and the input (even [NaN]). *)
Theorem calc_neutral (cfg : CardConfig) (s x : num) :
  s ≡ Fin 0 -> calculateOutputValue cfg s x = x.
Proof. apply calc_at_zero. Qed.

(** The three branches as one interpolation formula. *)
Lemma calc_formula (cfg : CardConfig) (m lo hi a x : Q) :
  slider_max cfg = Some m -> input_min cfg = Some lo -> input_max cfg = Some hi ->
  ~ m == 0 ->
  calculateOutputValue cfg (Fin a) (Fin x) ≡ Fin (override_spec m lo hi a x).
Proof.
  intros Hmax Hlo Hhi Hm. unfold override_spec, override_target.
  destruct (Q_dec 0 a) as [[Ha|Ha]|Ha].
  - rewrite (calc_pos_branch cfg m x Hmax Hm a hi Ha Hhi).
    destruct (qltb_spec 0 a); [|lra]. by rewrite Qabs_pos by lra.
  - rewrite (calc_neg_branch cfg m x Hmax Hm a lo Ha Hlo).
    destruct (qltb_spec 0 a); [lra|]. by rewrite Qabs_neg by lra.
  - assert (Ha0 : a == 0) by (symmetry; exact Ha).
    rewrite calc_at_zero by exact Ha0. apply Fin_equiv.
    rewrite (Qabs_wd a 0 Ha0). change (Qabs 0) with 0. unfold Qdiv. ring.
Qed.

(** C5: Refinement: on finite arguments, with the three numeric fields
    it reads set and [slider_max <> 0], [calculateOutputValue] computes
    the interpolation [override_spec] of the specification. *)
Theorem calc_refines_spec (cfg : CardConfig) (m lo hi a x : Q) :
  slider_max cfg = Some m -> input_min cfg = Some lo -> input_max cfg = Some hi ->
  ~ m == 0 ->
  calculateOutputValue cfg (Fin a) (Fin x) ≡ Fin (override_spec m lo hi a x).
Proof. apply calc_formula. Qed.

(** The interpolation is monotone in the slider value. *)
Lemma override_spec_monotone (m lo hi a1 a2 x : Q) :
  0 < m -> lo <= x <= hi -> a1 <= a2 ->
  override_spec m lo hi a1 x <= override_spec m lo hi a2 x.
Proof.
  intros Hm Hx Ha. unfold override_spec, override_target.
  assert (forall a, 0 <= a -> Qabs a / m == a * / m) as Hp
    by (intros; rewrite Qabs_pos by done; reflexivity).
  assert (forall a, a <= 0 -> Qabs a / m == - a * / m) as Hn
    by (intros; rewrite Qabs_neg by done; reflexivity).
  assert (0 < / m) by (apply Qinv_lt_0_compat; lra).
  assert (0 <= (hi - x) * / m /\ 0 <= (x - lo) * / m) as [] by (split; nra).
  destruct (qltb_spec 0 a1), (qltb_spec 0 a2); try lra;
    rewrite ?(Hp a1), ?(Hp a2), ?(Hn a1), ?(Hn a2) by lra; nra.
Qed.

(** C26: Monotonicity: with [0 < slider_max] and an input within
    [[input_min, input_max]], moving the slider right never lowers the
    output. *)
Theorem calc_monotone (cfg : CardConfig) (m lo hi a1 a2 x : Q) :
  slider_max cfg = Some m -> input_min cfg = Some lo -> input_max cfg = Some hi ->
  0 < m -> lo <= x <= hi -> a1 <= a2 ->
  num_le (calculateOutputValue cfg (Fin a1) (Fin x))
         (calculateOutputValue cfg (Fin a2) (Fin x)) = true.
Proof.
  intros Hmax Hlo Hhi Hm Hx Ha.
  rewrite !(calc_formula cfg m lo hi) by (auto; lra). cbn.
  destruct (qltb_spec (override_spec m lo hi a2 x) (override_spec m lo hi a1 x));
    [|done].
  pose proof (override_spec_monotone m lo hi a1 a2 x). lra.
Qed.

(** C24: With [slider_max] left out of the configuration, every
    non-neutral slider position yields [NaN]: [calculateOutputValue]
    reads [this.config.slider_max] and not the default [100] that
    [render] uses for the slider's range. *)
Theorem calc_undefined_slider_max (cfg : CardConfig) (a : Q) (x : num) :
  slider_max cfg = None -> ~ a == 0 -> calculateOutputValue cfg (Fin a) x = NaN.
Proof.
  intros Hmax Ha. unfold calculateOutputValue. rewrite Hmax. cbn [num_of_opt].
  autorewrite with jsnan. cbn. q_cases; try lra; done.
Qed.

(** C25: [setConfig] accepts [slider_max: 0]; every non-neutral slider
    position then yields a non-finite output ([Infinity], [-Infinity] or
    [NaN]) instead of a configuration error. *)
Theorem calc_zero_slider_max (cfg : CardConfig) (m lo hi a x : Q) :
  slider_max cfg = Some m -> m == 0 -> input_min cfg = Some lo -> input_max cfg = Some hi ->
  ~ a == 0 -> is_finite (calculateOutputValue cfg (Fin a) (Fin x)) = false.
Proof.
  intros Hmax Hm Hlo Hhi Ha. unfold calculateOutputValue. rewrite Hmax, Hlo, Hhi.
  cbn. q_cases; cbn; q_cases; cbn; done.
Qed.

(** An input that is not a number ([parseFloat] of a state such as
    ["unavailable"]) propagates: the output is [NaN]. *)
Lemma calc_nan_input (cfg : CardConfig) (s : num) :
  calculateOutputValue cfg s NaN = NaN.
Proof.
  unfold calculateOutputValue. autorewrite with jsnan.
  by destruct (Fin 0 <? s)%js, (s <? Fin 0)%js.
Qed.

(** C11: The write to a light: a finite output at most zero turns the
    light off; a positive one turns it on with [brightness_pct] equal
    to the output clamped to at most [100], so in [(0, 100]]. *)
Theorem light_call_spec (e : string) (y : Q) :
  (y <= 0 -> output_service_call true e (Fin y) = LightTurnOff e) /\
  (0 < y -> exists p, output_service_call true e (Fin y) = LightTurnOn e (Fin p) /\
                      0 < p <= 100 /\ p == Qmin 100 y).
Proof.
  unfold output_service_call. cbn. split; intros Hy; q_cases; try lra; cbn;
    q_cases; try lra; try done;
    (eexists; split; [reflexivity|]);
    rewrite ?Q.min_l, ?Q.min_r by lra; lra.
Qed.

(** ** Witnesses *)

Lemma calc_neutral_witness :
  calculateOutputValue minimal_config (Fin 0) (Fin 40) = Fin 40.
Proof. apply calc_neutral. reflexivity. Defined.

Lemma calc_refines_spec_witness :
  calculateOutputValue example_config (Fin 50) (Fin 40) ≡ Fin (override_spec 100 0 100 50 40).
Proof. apply calc_refines_spec; try reflexivity. discriminate. Defined.

Lemma calc_monotone_witness :
  num_le (calculateOutputValue example_config (Fin (-30)) (Fin 40))
         (calculateOutputValue example_config (Fin 20) (Fin 40)) = true.
Proof.
  apply (calc_monotone example_config 100 0 100); try reflexivity; vm_compute;
    try split; discriminate.
Defined.

Lemma calc_undefined_slider_max_witness :
  calculateOutputValue minimal_config (Fin 50) (Fin 40) = NaN.
Proof. apply calc_undefined_slider_max; [reflexivity | discriminate]. Defined.

Lemma calc_zero_slider_max_witness :
  is_finite (calculateOutputValue zero_max_config (Fin 50) (Fin 40)) = false.
Proof.
  apply (calc_zero_slider_max zero_max_config 0 0 100); try reflexivity. discriminate.
Defined.

Lemma light_call_spec_witness :
  exists p, output_service_call true "light.living_room" (Fin 70) =
              LightTurnOn "light.living_room" (Fin p) /\ 0 < p <= 100 /\ p == Qmin 100 70.
Proof. apply (proj2 (light_call_spec "light.living_room" 70)). reflexivity. Defined.
