(* ===== verification/ColorDeriver.v ===== *)
(** * The colour deriver

    [getLightColor] (lines 30-75) with its helpers [hslToRgb]
    (lines 77-96) and [hexToRgb] (lines 98-104).  The colour is the CSS
    value the card puts in its style sheet: a literal string (the
    configured [slider_color], its default ["#4473a0"], or the grey
    ["#808080"]) or the template [rgb(r, g, b)] with the three rounded
    channels.  The attribute tests follow JavaScript truthiness: an
    array is always truthy, a number only when it is not [0]. *)

From S2P Require Import Prelude Config JsParse HassState.

Local Open Scope Q_scope.

(** The string [getLightColor] returns. *)
Inductive CssColor : Type :=
| CssLiteral (s : string)
| CssRgb (r g b : num).

(** ** [hslToRgb(h, s, l)] *)

Definition hslToRgb (h s l : num) : num * num * num :=
  let s := (s / Fin 100)%js in
  let l := (l / Fin 100)%js in
  let c := ((Fin 1 - num_abs (Fin 2 * l - Fin 1)) * s)%js in
  let x := (c * (Fin 1 - num_abs (num_rem (h / Fin 60) (Fin 2) - Fin 1)))%js in
  let m := (l - c / Fin 2)%js in
  let '(r, g, b) :=
    if (Fin 0 <=? h)%js && (h <? Fin 60)%js then (c, x, Fin 0)
    else if (Fin 60 <=? h)%js && (h <? Fin 120)%js then (x, c, Fin 0)
    else if (Fin 120 <=? h)%js && (h <? Fin 180)%js then (Fin 0, c, x)
    else if (Fin 180 <=? h)%js && (h <? Fin 240)%js then (Fin 0, x, c)
    else if (Fin 240 <=? h)%js && (h <? Fin 300)%js then (x, Fin 0, c)
    else (c, Fin 0, x) in
  (num_round ((r + m) * Fin 255)%js,
   num_round ((g + m) * Fin 255)%js,
   num_round ((b + m) * Fin 255)%js).

(** The reference conversion of CSS Color Module Level 4 (section
    "Converting HSL colors to sRGB"), for a hue in [[0, 360)] and [s],
    [l] as fractions: channel [n] is
    [l - a * max(-1, min(k - 3, 9 - k, 1))] with
    [k = (n + h / 30) mod 12] and [a = s * min(l, 1 - l)]; red, green
    and blue are the channels [0], [8] and [4]. *)
Definition hsl_channel (h s l n : Q) : Q :=
  let t := n + h / 30 in
  let k := t - 12 * inject_Z (Qfloor (t / 12)) in
  let a := s * Qmin l (1 - l) in
  l - a * Qmax (-1) (Qmin (Qmin (k - 3) (9 - k)) 1).

(** ** [hexToRgb(hex)] *)

Definition hexToRgb (hex : string) : num * num * num :=
  (parseInt16 (js_slice hex 1 3),
   parseInt16 (js_slice hex 3 5),
   parseInt16 (js_slice hex 5 7)).

(** ** [getLightColor()] *)

(** Step 5: [brightness ? 0.5 + (brightness / 255) / 2 : 1]. *)
Definition brightness_factor (a : LightAttributes) : num :=
  match brightness a with
  | Some br =>
      if truthy (Fin br) then (Fin (1 # 2) + (Fin br / Fin 255) / Fin 2)%js
      else Fin 1
  | None => Fin 1
  end.

(** [rgb(${Math.round(r * f)}, ${Math.round(g * f)}, ${Math.round(b * f)})] *)
Definition scaled_rgb (r g b f : num) : CssColor :=
  CssRgb (num_round (r * f)%js) (num_round (g * f)%js) (num_round (b * f)%js).

(** The default colour of the slider: [this.config.slider_color || '#4473a0']. *)
Definition default_color (cfg : CardConfig) : CssColor :=
  CssLiteral (js_or (slider_color cfg) "#4473a0").

(** Steps 5-7, for a light that is on. *)
Definition color_of_attributes (a : LightAttributes) : CssColor :=
  let f := brightness_factor a in
  match rgb_color a with
  | Some (r, g, b) => scaled_rgb (Fin r) (Fin g) (Fin b) f
  | None =>
  match hs_color a with
  | Some (h, s) =>
      let '(r, g, b) := hslToRgb (Fin h) (Fin s) (Fin 100) in scaled_rgb r g b f
  | None =>
  match xy_color a with
  | Some _ =>
      let white := num_round (Fin 255 * f)%js in CssRgb white white white
  | None =>
  match color_temp a with
  | Some temp =>
      if truthy (Fin temp) then
        let blue := num_min (Fin 255)
                      (num_max (Fin 0) (Fin 255 - (Fin temp - Fin 150) / Fin 2)%js) in
        let red := num_min (Fin 255)
                     (num_max (Fin 0) (Fin 150 + (Fin temp - Fin 150) / Fin 4)%js) in
        scaled_rgb red red blue f
      else let '(r, g, b) := hexToRgb "#fec007" in scaled_rgb r g b f
  | None => let '(r, g, b) := hexToRgb "#fec007" in scaled_rgb r g b f
  end end end end.

(** The whole function, given the configuration and [this._hass.states]. *)
Definition getLightColor (cfg : CardConfig) (sts : gmap string EntityState) : CssColor :=
  match color_entity cfg with
  | Some e =>
      if negb (truthy e) then default_color cfg
      else match sts !! e with
           | None => CssLiteral "#808080"
           | Some st =>
               if String.eqb (state st) "unavailable" then CssLiteral "#808080"
               else if String.eqb (state st) "off" then default_color cfg
               else color_of_attributes (attributes st)
           end
  | None => default_color cfg
  end.

(** ** Well-formed colours *)

(** Two colours are equivalent when they are the same literal or their
    channels are equivalent numbers. *)
Definition css_eqv (c d : CssColor) : Prop :=
  match c, d with
  | CssLiteral s, CssLiteral t => s = t
  | CssRgb r g b, CssRgb r' g' b' => r ≡ r' /\ g ≡ g' /\ b ≡ b'
  | _, _ => False
  end.

#[export] Instance css_equiv : Equiv CssColor := css_eqv.

#[export] Instance css_equivalence : Equivalence (≡@{CssColor}).
Proof.
  split.
  - intros [s|r g b]; cbn; [done | split_and!; reflexivity].
  - intros [s|r g b] [t|r' g' b']; cbn; try done. intros (?&?&?); split_and!; by symmetry.
  - intros [s|r g b] [t|r' g' b'] [u|r'' g'' b'']; cbn; try done; [congruence|].
    intros (?&?&?) (?&?&?); split_and!; etransitivity; eauto.
Qed.

#[export] Instance CssRgb_proper : Proper ((≡) ==> (≡) ==> (≡) ==> (≡)) CssRgb.
Proof. intros r r' Hr g g' Hg b b' Hb. by split_and!. Qed.

(** Every [rgb(...)] channel is an integer in [[0, 255]]. *)
Definition css_ok (c : CssColor) : Prop :=
  match c with
  | CssLiteral _ => True
  | CssRgb r g b => channel_ok r /\ channel_ok g /\ channel_ok b
  end.

(** The attributes Home Assistant reports for a light: brightness and
    RGB channels in [[0, 255]]. *)
Definition attrs_ok (a : LightAttributes) : Prop :=
  (forall br, brightness a = Some br -> 0 <= br <= 255) /\
  (forall r g b, rgb_color a = Some (r, g, b) ->
     0 <= r <= 255 /\ 0 <= g <= 255 /\ 0 <= b <= 255).

(** ** Lemmas *)

(** The brightness factor is a number in [[1/2, 1]]. *)
Lemma brightness_factor_range (a : LightAttributes) :
  (forall br, brightness a = Some br -> 0 <= br <= 255) ->
  exists f, brightness_factor a = Fin f /\ 1 # 2 <= f <= 1.
Proof.
  unfold brightness_factor. destruct (brightness a) as [br|]; intros Hbr.
  - specialize (Hbr br eq_refl). cbn. q_cases; cbn;
      (eexists; split; [reflexivity|]); try lra.
    assert (0 <= br / 255 <= 1) by (split; [apply Qle_shift_div_l | apply Qle_shift_div_r]; lra).
    assert (0 <= br / 255 / 2 <= 1 # 2) by (split; [apply Qle_shift_div_l | apply Qle_shift_div_r]; lra).
    lra.
  - eexists. split; [reflexivity|]. lra.
Qed.

(** A channel in [[0, 255]] scaled by a factor in [[1/2, 1]] and
    rounded is a valid channel. *)
Lemma scaled_channel_ok (x : num) (v f : Q) :
  x ≡ Fin v -> 0 <= v <= 255 -> 1 # 2 <= f <= 1 ->
  channel_ok (num_round (x * Fin f)%js).
Proof.
  intros Hx Hv Hf. apply (channel_ok_round _ (v * f)).
  - by rewrite Hx.
  - split; nra.
Qed.

Lemma scaled_rgb_ok (r g b : num) (vr vg vb f : Q) :
  r ≡ Fin vr -> g ≡ Fin vg -> b ≡ Fin vb ->
  0 <= vr <= 255 -> 0 <= vg <= 255 -> 0 <= vb <= 255 -> 1 # 2 <= f <= 1 ->
  css_ok (scaled_rgb r g b (Fin f)).
Proof. intros. cbn. split_and!; eapply scaled_channel_ok; eauto. Qed.

(** [Math.min(255, Math.max(0, v))] is in [[0, 255]]. *)
Lemma clamp_ok (x : num) (v : Q) :
  x ≡ Fin v -> exists w, num_min (Fin 255) (num_max (Fin 0) x) ≡ Fin w /\ 0 <= w <= 255.
Proof.
  intros Hx. destruct x as [a| |]; cbn in Hx; try done.
  num_simpl; eexists; (split; [reflexivity|]); lra.
Qed.

(** With lightness [100], the chroma [c] is zero... *)
Lemma hsl_chroma_zero (s : Q) :
  ((Fin 1 - num_abs (Fin 2 * (Fin 100 / Fin 100) - Fin 1)) * (Fin s / Fin 100))%js ≡ Fin 0.
Proof.
  num_simpl; rewrite (Qabs_pos (2 * (100 / 100) + - (1))) by (vm_compute; discriminate);
    field.
Qed.

(** ... and so is the second-largest component [x]. *)
Lemma hsl_hue_zero (h s : Q) :
  ((Fin 1 - num_abs (Fin 2 * (Fin 100 / Fin 100) - Fin 1)) * (Fin s / Fin 100) *
   (Fin 1 - num_abs (num_rem (Fin h / Fin 60) (Fin 2) - Fin 1)))%js ≡ Fin 0.
Proof. rewrite hsl_chroma_zero. num_simpl; ring. Qed.

(** [hslToRgb(h, s, 100)] is white, whatever the hue and saturation. *)
Lemma hsl_white (h s : Q) : hslToRgb (Fin h) (Fin s) (Fin 100) ≡ (Fin 255, Fin 255, Fin 255).
Proof.
  unfold hslToRgb. cbv zeta.
  repeat case_match; simplify_eq; rewrite ?hsl_hue_zero, ?hsl_chroma_zero;
    vm_compute; repeat split.
Qed.

(** The fallback orange. *)
Lemma hexToRgb_fallback : hexToRgb "#fec007" = (Fin 254, Fin 192, Fin 7).
Proof. vm_compute. reflexivity. Qed.

(** The colour-temperature channels are finite before clamping. *)
Lemma temp_blue_fin (t : Q) :
  (Fin 255 - (Fin t - Fin 150) / Fin 2)%js ≡ Fin (255 - (t - 150) / 2).
Proof. by num_simpl. Qed.

Lemma temp_red_fin (t : Q) :
  (Fin 150 + (Fin t - Fin 150) / Fin 4)%js ≡ Fin (150 + (t - 150) / 4).
Proof. by num_simpl. Qed.

(** Every colour a light that is on can produce is well formed. *)
Lemma color_of_attributes_ok (a : LightAttributes) :
  attrs_ok a -> css_ok (color_of_attributes a).
Proof.
  intros [Hbr Hrgb]. destruct (brightness_factor_range a Hbr) as (f & Hf & Hfr).
  unfold color_of_attributes. rewrite Hf.
  destruct (rgb_color a) as [[[r g] b]|].
  { destruct (Hrgb r g b eq_refl) as (?&?&?). eapply scaled_rgb_ok; by eauto. }
  destruct (hs_color a) as [[h s]|].
  { pose proof (hsl_white h s) as Hw.
    destruct (hslToRgb (Fin h) (Fin s) (Fin 100)) as [[r g] b].
    destruct Hw as [[Hr Hg] Hb]. cbn [fst snd] in Hr, Hg, Hb.
    eapply scaled_rgb_ok; [exact Hr | exact Hg | exact Hb | lra..]. }
  destruct (xy_color a).
  { assert (channel_ok (num_round (Fin 255 * Fin f)%js)) by
      (apply (channel_ok_round _ (255 * f)); [done | split; nra]).
    by split_and!. }
  destruct (color_temp a) as [t|]; [case_match|];
    rewrite ?hexToRgb_fallback; try (eapply scaled_rgb_ok; try done; lra).
  destruct (clamp_ok _ _ (temp_blue_fin t)) as (wb & Hb & ?).
  destruct (clamp_ok _ _ (temp_red_fin t)) as (wr & Hr & ?).
  eapply scaled_rgb_ok; eauto.
Qed.

(** [parseInt] reads back every two-digit hexadecimal byte, checked on
    all 256 bytes. *)
Lemma parseInt16_hex2 (n : Z) : (0 <= n < 256)%Z -> parseInt16 (hex2 n) ≡ Fin (inject_Z n).
Proof.
  intros Hn.
  assert (Hall : forallb (fun k => bool_decide (parseInt16 (hex2 k) ≡ Fin (inject_Z k)))
                   (map Z.of_nat (seq 0 256)) = true) by (vm_compute; reflexivity).
  rewrite forallb_forall in Hall.
  apply (bool_decide_eq_true_1 (parseInt16 (hex2 n) ≡ Fin (inject_Z n))), Hall, in_map_iff.
  exists (Z.to_nat n). split; [lia | apply in_seq; lia].
Qed.

(** ** Properties of [getLightColor] *)

(** C14: Every [rgb(...)] colour [getLightColor] produces has integer
    channels in [[0, 255]], whatever attributes the light reports,
    provided Home Assistant's brightness and RGB values are in
    [[0, 255]]. *)
Theorem getLightColor_channels_ok (cfg : CardConfig) (sts : gmap string EntityState) :
  map_Forall (fun _ st => attrs_ok (attributes st)) sts -> css_ok (getLightColor cfg sts).
Proof.
  intros Hall. unfold getLightColor, default_color.
  repeat case_match; cbn; try done. by eapply color_of_attributes_ok, Hall.
Qed.

(** C22: A light reporting a hue/saturation colour (and no RGB colour) is
    shown white, scaled by the brightness factor: [hslToRgb] is called
    with lightness [100], where every hue gives white, so the hue never
    reaches the slider. *)
Theorem getLightColor_hs_white (cfg : CardConfig) (sts : gmap string EntityState) (e : string)
    (st : EntityState) (h s : Q) :
  color_entity cfg = Some e -> truthy e = true -> sts !! e = Some st ->
  state st <> "unavailable" -> state st <> "off" ->
  rgb_color (attributes st) = None -> hs_color (attributes st) = Some (h, s) ->
  let w := num_round (Fin 255 * brightness_factor (attributes st))%js in
  getLightColor cfg sts ≡ CssRgb w w w.
Proof.
  intros He Ht Hs Hu Ho Hrgb Hhs w. unfold getLightColor. rewrite He, Ht, Hs.
  rewrite <- String.eqb_neq in Hu, Ho. rewrite Hu, Ho. unfold color_of_attributes.
  rewrite Hrgb, Hhs. pose proof (hsl_white h s) as Hw.
  destruct (hslToRgb (Fin h) (Fin s) (Fin 100)) as [[r g] b].
  destruct Hw as [[Hr Hg] Hb]. cbn [fst snd] in Hr, Hg, Hb.
  cbn. subst w. by rewrite Hr, Hg, Hb.
Qed.

(** C23: A light reporting [brightness: 0] is shown at full intensity,
    exactly as if it reported no brightness: [0] is falsy, so the factor
    is [1] and not the [0.5] the specification gives for brightness 0. *)
Theorem brightness_zero_as_absent (a : LightAttributes) :
  brightness a = Some 0 ->
  color_of_attributes a =
  color_of_attributes {| brightness := None; rgb_color := rgb_color a;
                         hs_color := hs_color a; xy_color := xy_color a;
                         color_temp := color_temp a |}.
Proof.
  intros Hb. unfold color_of_attributes, brightness_factor. cbn. by rewrite Hb.
Qed.

(** C28: Round trip: [hexToRgb] reads back the three bytes of a colour
    literal ["#rrggbb"]. *)
Theorem hexToRgb_roundtrip (r g b : Z) :
  (0 <= r < 256)%Z -> (0 <= g < 256)%Z -> (0 <= b < 256)%Z ->
  hexToRgb (hex_color r g b) ≡ (Fin (inject_Z r), Fin (inject_Z g), Fin (inject_Z b)).
Proof.
  intros Hr Hg Hb. unfold hexToRgb.
  change (js_slice (hex_color r g b) 1 3) with (hex2 r).
  change (js_slice (hex_color r g b) 3 5) with (hex2 g).
  change (js_slice (hex_color r g b) 5 7) with (hex2 b).
  split; [split|]; cbn [fst snd]; by apply parseInt16_hex2.
Qed.

(** ** Witnesses *)

Lemma getLightColor_channels_ok_witness :
  css_ok (getLightColor color_config (lamp_states (rgb_lamp (Some 0%Q)))).
Proof.
  apply getLightColor_channels_ok.
  apply map_Forall_insert_2; [|apply map_Forall_insert_2; [|apply map_Forall_empty]];
    split; cbn; intros; simplify_eq; split_and!; lra.
Defined.

Lemma getLightColor_hs_white_witness :
  getLightColor color_config (lamp_states hs_lamp) ≡
  CssRgb (num_round (Fin 255 * brightness_factor (attributes hs_lamp))%js)
         (num_round (Fin 255 * brightness_factor (attributes hs_lamp))%js)
         (num_round (Fin 255 * brightness_factor (attributes hs_lamp))%js).
Proof.
  apply (getLightColor_hs_white _ _ "light.lamp" hs_lamp 0 100); try reflexivity; discriminate.
Defined.

(** The specification's example: brightness [0], RGB [(200, 100, 50)]
    is shown as [rgb(200, 100, 50)], not [rgb(100, 50, 25)]. *)
Lemma brightness_zero_as_absent_witness :
  color_of_attributes (attributes (rgb_lamp (Some 0%Q))) =
  color_of_attributes (attributes (rgb_lamp None)) /\
  color_of_attributes (attributes (rgb_lamp None)) = CssRgb (Fin 200) (Fin 100) (Fin 50).
Proof. split; [apply brightness_zero_as_absent; reflexivity | vm_compute; reflexivity]. Defined.

Lemma hexToRgb_roundtrip_witness :
  hexToRgb (hex_color 254 192 7) ≡ (Fin 254, Fin 192, Fin 7).
Proof. apply hexToRgb_roundtrip; lia. Defined.

