(* ===== verification/ColorSpec.v ===== *)
(** * The specification of the colour deriver, and the refinement

    The colour rules of the specification (section 4.3) as an abstract
    function over exact rationals: the light's appearance is the tagged
    variant of the design notes (section 9), chosen in the order
    RGB > HS > XY > temperature; the brightness factor, the scaling and
    the round-half-away-from-zero rule are written as the
    specification states them.  [getLightColor_refines] shows that
    [getLightColor] (ColorDeriver.v) implements it wherever the code's
    truthiness tests and the specification's "is present" agree: no
    empty entity id or colour string, no brightness or colour
    temperature of [0]. *)

From S2P Require Import Prelude Config HassState ColorDeriver.

Local Open Scope Q_scope.

(** The appearance of a light. *)
Inductive Appearance : Type :=
| ARgb (r g b : Q)
| AHs (h s : Q)
| AXy
| ATemp (t : Q)
| ANone.

(** The first colour description present, in the specification's
    precedence. *)
Definition appearance (a : LightAttributes) : Appearance :=
  match rgb_color a, hs_color a, xy_color a, color_temp a with
  | Some (r, g, b), _, _, _ => ARgb r g b
  | None, Some (h, s), _, _ => AHs h s
  | None, None, Some _, _ => AXy
  | None, None, None, Some t => ATemp t
  | None, None, None, None => ANone
  end.

(** Rule 4: [0.5 + (brightness / 255) / 2] when a brightness is present. *)
Definition spec_factor (br : option Q) : Q :=
  match br with Some b => (1 # 2) + b / 255 / 2 | None => 1 end.

(** [clamp(v, 0, 255)]. *)
Definition spec_clamp (v : Q) : Q := Qmax 0 (Qmin v 255).

(** Rules 5-9: the channels before scaling.  Rule 6 converts with the
    CSS reference at lightness 100%. *)
Definition spec_channels (ap : Appearance) : Q * Q * Q :=
  match ap with
  | ARgb r g b => (r, g, b)
  | AHs h s =>
      (hsl_channel h (s / 100) 1 0 * 255, hsl_channel h (s / 100) 1 8 * 255,
       hsl_channel h (s / 100) 1 4 * 255)
  | AXy => (255, 255, 255)
  | ATemp t =>
      let red := spec_clamp (150 + (t - 150) / 4) in
      (red, red, spec_clamp (255 - (t - 150) / 2))
  | ANone => (254, 192, 7)
  end.

(** Round half away from zero. *)
Definition round_away (q : Q) : Z :=
  if Qle_bool 0 q then Qfloor (q + (1 # 2)) else (- Qfloor (- q + (1 # 2)))%Z.

Definition spec_channel (v f : Q) : num := Fin (inject_Z (round_away (v * f))).

(** The colour of a light that is on. *)
Definition spec_color (ap : Appearance) (f : Q) : CssColor :=
  let '(r, g, b) := spec_channels ap in
  CssRgb (spec_channel r f) (spec_channel g f) (spec_channel b f).

(** The attributes on which "present" and "truthy" agree: well formed,
    with no brightness and no colour temperature equal to [0]. *)
Definition attrs_present (a : LightAttributes) : Prop :=
  attrs_ok a /\ (forall br, brightness a = Some br -> ~ br == 0) /\
  (forall t, color_temp a = Some t -> ~ t == 0).

(** Rules 1-3, then the colour of the light. *)
Definition deriveColor (cfg : CardConfig) (sts : gmap string EntityState) : CssColor :=
  let neutral := CssLiteral (default "#4473a0" (slider_color cfg)) in
  match color_entity cfg with
  | None => neutral
  | Some e =>
      match sts !! e with
      | None => CssLiteral "#808080"
      | Some st =>
          if String.eqb (state st) "unavailable" then CssLiteral "#808080"
          else if String.eqb (state st) "off" then neutral
          else spec_color (appearance (attributes st)) (spec_factor (brightness (attributes st)))
      end
  end.

(** ** Lemmas *)

#[export] Instance round_away_proper : Proper (Qeq ==> eq) round_away.
Proof.
  intros x y Hxy. unfold round_away.
  destruct (Qlt_le_dec x 0) as [Hx|Hx].
  - assert (Qle_bool 0 x = false) as ->
      by (apply not_true_iff_false; rewrite Qle_bool_iff; lra).
    assert (Qle_bool 0 y = false) as ->
      by (apply not_true_iff_false; rewrite Qle_bool_iff; lra).
    by rewrite Hxy.
  - assert (Qle_bool 0 x = true) as -> by (apply Qle_bool_iff; lra).
    assert (Qle_bool 0 y = true) as -> by (apply Qle_bool_iff; lra).
    by rewrite Hxy.
Qed.

Lemma spec_channel_eqv (v v' f : Q) : v == v' -> spec_channel v f ≡ spec_channel v' f.
Proof. intros H. unfold spec_channel. by rewrite H. Qed.

(** With a brightness that is not [0], the code's factor is the
    specification's. *)
Lemma brightness_factor_spec (a : LightAttributes) :
  (forall br, brightness a = Some br -> ~ br == 0) ->
  brightness_factor a = Fin (spec_factor (brightness a)).
Proof.
  intros H. unfold brightness_factor, spec_factor.
  destruct (brightness a) as [br|]; [|done]. unfold_truthy.
  destruct (Qeq_bool_spec br 0) as [E|_]; [by destruct (H br eq_refl)|]. cbn [negb].
  rewrite !num_div_Fin by lra. reflexivity.
Qed.

(** [Math.round] of a non-negative product is the rounding of the
    specification. *)
Lemma round_channel (v f : Q) :
  0 <= v -> 0 <= f -> num_round (Fin v * Fin f)%js = spec_channel v f.
Proof.
  intros Hv Hf. unfold spec_channel, round_away. cbn.
  assert (Hvf : Qle_bool 0 (v * f) = true) by (apply Qle_bool_iff; nra).
  by rewrite Hvf.
Qed.

Lemma scaled_spec (r g b f : Q) :
  0 <= r -> 0 <= g -> 0 <= b -> 0 <= f ->
  scaled_rgb (Fin r) (Fin g) (Fin b) (Fin f) =
  CssRgb (spec_channel r f) (spec_channel g f) (spec_channel b f).
Proof. intros. unfold scaled_rgb. by rewrite !round_channel. Qed.

(** [Math.min(255, Math.max(0, v))] is [clamp(v, 0, 255)]. *)
Lemma clamp_spec (v : Q) :
  num_min (Fin 255) (num_max (Fin 0) (Fin v)) ≡ Fin (spec_clamp v) /\ 0 <= spec_clamp v.
Proof. unfold spec_clamp. num_simpl; (split; [apply Fin_equiv|]); q_resolve; lra. Qed.

(** At lightness 100% every channel of the reference conversion is
    full. *)
Lemma hsl_channel_white (h s n : Q) : hsl_channel h s 1 n * 255 == 255.
Proof. unfold hsl_channel. rewrite (Q.min_r 1 (1 - 1)) by lra. ring. Qed.

(** The colour of a light that is on: rules 4-9. *)
Lemma color_of_attributes_spec (a : LightAttributes) :
  attrs_present a ->
  color_of_attributes a ≡ spec_color (appearance a) (spec_factor (brightness a)).
Proof.
  intros ([Hbr Hrgb] & Hb0 & Ht0).
  destruct (brightness_factor_range a Hbr) as (f & Hf & Hfr).
  rewrite (brightness_factor_spec a Hb0) in Hf. injection Hf as Hf.
  unfold color_of_attributes, appearance. rewrite (brightness_factor_spec a Hb0), Hf.
  destruct (rgb_color a) as [[[r g] b]|].
  { destruct (Hrgb r g b eq_refl) as (?&?&?). rewrite scaled_spec by lra. reflexivity. }
  destruct (hs_color a) as [[h s]|].
  { pose proof (hsl_white h s) as Hw.
    destruct (hslToRgb (Fin h) (Fin s) (Fin 100)) as [[r g] b].
    destruct Hw as [[Hr Hg] Hb]. cbn [fst snd] in Hr, Hg, Hb.
    unfold scaled_rgb. rewrite Hr, Hg, Hb, !round_channel by lra. cbn.
    split_and!; apply spec_channel_eqv; by rewrite hsl_channel_white. }
  destruct (xy_color a).
  { cbv zeta. rewrite round_channel by lra. reflexivity. }
  destruct (color_temp a) as [t|].
  - unfold_truthy. destruct (Qeq_bool_spec t 0) as [E|_]; [by destruct (Ht0 t eq_refl)|].
    cbn [negb]. cbv zeta. unfold scaled_rgb.
    rewrite temp_red_fin, temp_blue_fin.
    destruct (clamp_spec (150 + (t - 150) / 4)) as [-> ?].
    destruct (clamp_spec (255 - (t - 150) / 2)) as [-> ?].
    by rewrite !round_channel by lra.
  - rewrite hexToRgb_fallback. cbn [fst snd]. rewrite scaled_spec by lra. reflexivity.
Qed.

(** The configured colour string, when it is not empty. *)
Lemma default_color_spec (cfg : CardConfig) :
  slider_color cfg <> Some "" ->
  default_color cfg = CssLiteral (default "#4473a0" (slider_color cfg)).
Proof.
  unfold default_color. unfold_truthy. intros H.
  destruct (slider_color cfg) as [c|]; [|done].
  destruct (String.eqb_spec c ""); [by subst|done].
Qed.

(** C12: [getLightColor] implements the colour rules of the
    specification (rules 1-9, with the appearance read in the order
    RGB > HS > XY > temperature and round half away from zero) on
    every configuration and state where "present" and "truthy" agree:
    no empty [color_entity] or [slider_color], and a colour entity
    reporting no brightness or colour temperature of [0]. *)
Theorem getLightColor_refines (cfg : CardConfig) (sts : gmap string EntityState) :
  color_entity cfg <> Some "" -> slider_color cfg <> Some "" ->
  (forall e st, color_entity cfg = Some e -> sts !! e = Some st ->
     attrs_present (attributes st)) ->
  getLightColor cfg sts ≡ deriveColor cfg sts.
Proof.
  intros Hce Hsc Hst. unfold getLightColor, deriveColor.
  rewrite (default_color_spec cfg Hsc).
  destruct (color_entity cfg) as [e|] eqn:Ee; [|done].
  assert (Htr : truthy e = true).
  { unfold_truthy. destruct (String.eqb_spec e ""); [by subst | done]. }
  rewrite Htr. cbn [negb].
  destruct (sts !! e) as [st|] eqn:Es; [|done].
  repeat case_match; try done. by apply color_of_attributes_spec, (Hst e).
Qed.

Lemma getLightColor_refines_witness :
  getLightColor color_config (lamp_states (rgb_lamp (Some 128)))
  ≡ deriveColor color_config (lamp_states (rgb_lamp (Some 128))).
Proof.
  apply getLightColor_refines; [done | done |].
  intros e st [= <-] Hs. unfold lamp_states in Hs. simplify_map_eq.
  split_and!; [split|..]; intros; simpl in *; simplify_eq; repeat split; lra.
Defined.
