(* ===== verification/Render.v ===== *)
(** * The render

    [render()] (lines 117-277) and the connect bar it draws
    ([updateConnectElement], lines 264-275).  The render is split at
    its [await]: [render_begin] writes the placeholder "Input entity
    not found" or the markup ([Pending]: the values the style sheet
    and the markup interpolate, and the options and entities the rest
    captures); [render_resume] creates the slider ([Mounted]) at the
    value current when it runs, and runs the [update] handler that
    noUiSlider calls as soon as line 281 binds it.  A render's outcome
    is a [View].  The CSS and HTML text itself is not modelled. *)

From S2P Require Import Prelude Config JsParse HassState ColorDeriver.

Local Open Scope Q_scope.

(** ** The rendered view *)

(** The connect bar drawn between zero and the handle. *)
Record ConnectBar : Type := {
  bar_left : num;
  bar_width : num
}.

(** [updateConnectElement(currentValue)], lines 264-275, with the
    [slider_min] and [slider_max] of the render that created it. *)
Definition updateConnectElement (slider_min slider_max : Q) (currentValue : num)
    : ConnectBar :=
  let zeroPos :=
    ((Fin 0 - Fin slider_min) / (Fin slider_max - Fin slider_min) * Fin 100)%js in
  let valuePos :=
    ((currentValue - Fin slider_min) / (Fin slider_max - Fin slider_min) * Fin 100)%js in
  if (Fin 0 <=? currentValue)%js then
    {| bar_left := zeroPos; bar_width := (valuePos - zeroPos)%js |}
  else {| bar_left := valuePos; bar_width := (zeroPos - valuePos)%js |}.

(** What a successful render mounts: the values the style sheet
    interpolates (the light colour, the title margin [center_text], the
    track, handle and handle-shadow colours), the title and icon when
    they are truthy, the value label, the noUiSlider instance and its
    connect bar, and the entities the slider's event handlers capture
    from the render. *)
Record Mounted : Type := {
  mt_color : CssColor;
  mt_center_text : string;
  mt_background : string;
  mt_handle : string;
  mt_handle_shadow : string;
  mt_title : option string;
  mt_icon : option string;
  mt_label : num;
  mt_unit : string;
  mt_start : num;
  mt_min : Q;
  mt_max : Q;
  mt_step : Q;
  mt_connect : ConnectBar;
  mt_input_entity : string;
  mt_output_entity : string
}.

(** What the synchronous part of a render fixes before it suspends at
    [await this.loadNoUiSlider()] (lines 118-251): the values the style
    sheet and the markup written by [innerHTML] interpolate (lines
    146-248), among them the value label [Math.round(this.currentSliderValue)],
    and the destructured options the continuation and the slider's
    handlers capture. *)
Record Pending : Type := {
  pd_color : CssColor;
  pd_center_text : string;
  pd_background : string;
  pd_handle : string;
  pd_handle_shadow : string;
  pd_title : option string;
  pd_icon : option string;
  pd_label : num;
  pd_unit : string;
  pd_min : Q;
  pd_max : Q;
  pd_step : Q;
  pd_input_entity : string;
  pd_output_entity : string
}.

(** The content of the shadow root: empty before the first render, the
    placeholder, the markup of a render whose slider is not created yet
    (the continuation has not run), or a mounted slider. *)
Inductive View : Type :=
| ViewEmpty
| ViewNotFound
| ViewLoading (p : Pending)
| ViewSlider (m : Mounted).

(** The errors the card's code throws, the rejection of the slider
    library's import included. *)
Inductive JsError : Type :=
| SetConfigError (e : ConfigError)
| TypeError (what : string)
| ImportError.

(** [render()] up to [await this.loadNoUiSlider()], lines 117-251.  The
    destructuring of [this.config] and the read of [this._hass.states]
    throw when either is [undefined].  An input entity missing from
    [hass.states] gives the placeholder "Input entity not found" and
    returns ([inr None]).  Otherwise the markup is written and the
    render suspends with what it captured ([inr (Some p)]).  A missing
    [input_entity] or [output_entity] cannot reach here after
    [setConfig] ([config_checked] in Card.v); the string ["undefined"]
    stands for it.  The three arguments are the fields the code reads:
    [this.config], [this._hass] and [this.currentSliderValue]. *)
Definition render_begin (config : option CardConfig) (hass : option Hass)
    (currentSliderValue : num) : JsError + option Pending :=
  match config, hass with
  | None, _ => inl (TypeError "this.config")
  | Some _, None => inl (TypeError "this._hass")
  | Some cfg, Some h =>
      let r := resolve cfg in
      let input_e := default "undefined" (r_input_entity r) in
      match states h !! input_e with
      | None => inr None
      | Some _ =>
          inr (Some {|
            pd_color := getLightColor cfg (states h);
            pd_center_text := if truthy (r_icon r) then "40px" else "0px";
            pd_background := r_slider_background_color r;
            pd_handle := r_handle_color r;
            pd_handle_shadow := r_handle_shadow_color r;
            pd_title := if truthy (r_name r) then Some (r_name r) else None;
            pd_icon := if truthy (r_icon r) then r_icon r else None;
            pd_label := num_round currentSliderValue;
            pd_unit := r_unit r;
            pd_min := r_slider_min r;
            pd_max := r_slider_max r;
            pd_step := r_step r;
            pd_input_entity := input_e;
            pd_output_entity := default "undefined" (r_output_entity r) |})
      end
  end.

(** [noUiSlider.create] and the connect bar, lines 253-277: the slider
    starts at [this.currentSliderValue] as it is when the continuation
    runs, and [updateConnectElement] draws the bar for that value.  The
    label is still the markup's. *)
Definition created (p : Pending) (currentSliderValue : num) : Mounted :=
  {| mt_color := pd_color p;
     mt_center_text := pd_center_text p;
     mt_background := pd_background p;
     mt_handle := pd_handle p;
     mt_handle_shadow := pd_handle_shadow p;
     mt_title := pd_title p;
     mt_icon := pd_icon p;
     mt_label := pd_label p;
     mt_unit := pd_unit p;
     mt_start := currentSliderValue;
     mt_min := pd_min p;
     mt_max := pd_max p;
     mt_step := pd_step p;
     mt_connect := updateConnectElement (pd_min p) (pd_max p) currentSliderValue;
     mt_input_entity := pd_input_entity p;
     mt_output_entity := pd_output_entity p |}.

(** What the slider's [update] handler writes to the page, lines
    283-285: the label shows [Math.round(value)] with the render's unit,
    and the bar is redrawn for the value. *)
Definition updated (m : Mounted) (v : num) : Mounted :=
  {| mt_color := mt_color m; mt_center_text := mt_center_text m;
     mt_background := mt_background m; mt_handle := mt_handle m;
     mt_handle_shadow := mt_handle_shadow m; mt_title := mt_title m;
     mt_icon := mt_icon m; mt_label := num_round v; mt_unit := mt_unit m;
     mt_start := mt_start m; mt_min := mt_min m; mt_max := mt_max m;
     mt_step := mt_step m; mt_connect := updateConnectElement (mt_min m) (mt_max m) v;
     mt_input_entity := mt_input_entity m; mt_output_entity := mt_output_entity m |}.

(** The continuation after the [await], lines 253-285: the slider is
    created, and binding the [update] handler (line 281) makes
    noUiSlider call it at once with the slider's value.  That value is
    the start value, which noUiSlider reports back unchanged when it
    lies on the step grid within the range and has at most two decimals
    (the snapping of other values is not modelled), so the handler's
    [this.currentSliderValue = parseFloat(values[0])] keeps it. *)
Definition render_resume (p : Pending) (currentSliderValue : num) : Mounted :=
  updated (created p currentSliderValue) currentSliderValue.

(** [render()] run to completion once [window.noUiSlider] is set: the
    [await] then resumes at the next microtask checkpoint, before any
    other event, so the continuation reads the same
    [this.currentSliderValue] as the markup.  AsyncCard.v models the
    render whose [await] waits for the import. *)
Definition render (config : option CardConfig) (hass : option Hass) (currentSliderValue : num)
    : JsError + View :=
  match render_begin config hass currentSliderValue with
  | inl e => inl e
  | inr None => inr ViewNotFound
  | inr (Some p) => inr (ViewSlider (render_resume p currentSliderValue))
  end.

(** The value label and the connect bar of a mounted slider show the
    same value. *)
Definition view_consistent (v : View) : Prop :=
  match v with
  | ViewSlider m =>
      exists x, mt_label m = num_round x /\
                mt_connect m = updateConnectElement (mt_min m) (mt_max m) x
  | _ => True
  end.

(** The position of a value on the slider's track, in percent. *)
Definition bar_pos (lo hi x : Q) : Q := (x - lo) / (hi - lo) * 100.

(** ** Lemmas *)

(** With a configuration and a [hass] object, [render] never throws. *)
Lemma render_ok cfg h v : exists vw, render (Some cfg) (Some h) v = inr vw.
Proof. unfold render, render_begin. cbv zeta. destruct (states h !! _); eauto. Qed.

(** With its input entity missing, the card renders the placeholder... *)
Lemma render_not_found cfg h v e :
  input_entity cfg = Some e -> states h !! e = None ->
  render (Some cfg) (Some h) v = inr ViewNotFound.
Proof. intros He Hn. unfold render, render_begin. cbn. rewrite He. cbn. by rewrite Hn. Qed.

(** ... and with it present, the slider at the current value. *)
Lemma render_found cfg h v e :
  input_entity cfg = Some e -> is_Some (states h !! e) ->
  exists m, render (Some cfg) (Some h) v = inr (ViewSlider m) /\ mt_start m = v.
Proof. intros He [st Hs]. unfold render, render_begin. cbn. rewrite He. cbn. rewrite Hs. by eexists. Qed.

(** The mounted slider's handlers capture the configured entities. *)
Lemma render_found_entities cfg h v e st :
  input_entity cfg = Some e -> states h !! e = Some st ->
  exists m, render (Some cfg) (Some h) v = inr (ViewSlider m) /\
            mt_input_entity m = e /\ mt_output_entity m = default "undefined" (output_entity cfg).
Proof. intros He Hs. unfold render, render_begin. cbn. rewrite He. cbn. rewrite Hs. by eexists. Qed.

Lemma render_start o h v m : render o h v = inr (ViewSlider m) -> mt_start m = v.
Proof. unfold render. repeat case_match; intros; simplify_eq; done. Qed.

(** A continuation draws the label and the bar from the same value. *)
Lemma resume_consistent p v : view_consistent (ViewSlider (render_resume p v)).
Proof. by exists v. Qed.

(** A render draws the label and the bar from the same value. *)
Lemma render_consistent o h v vw : render o h v = inr vw -> view_consistent vw.
Proof.
  unfold render. destruct (render_begin o h v) as [|[p|]]; intros; simplify_eq; [|done].
  apply resume_consistent.
Qed.

Lemma bar_pos_mono lo hi x y : lo < hi -> x <= y -> bar_pos lo hi x <= bar_pos lo hi y.
Proof.
  intros Hlh Hxy. unfold bar_pos, Qdiv.
  assert (0 < / (hi - lo)) by (apply Qinv_lt_0_compat; lra). nra.
Qed.

Lemma bar_pos_ends lo hi : lo < hi -> bar_pos lo hi lo == 0 /\ bar_pos lo hi hi == 100.
Proof. intros Hlh. unfold bar_pos. split; field; lra. Qed.

(** C27: The connect bar drawn by [updateConnectElement] runs exactly
    from the position of zero to the position of the value (whichever
    side of zero it is on) and stays within the track [[0, 100]]
    percent, for a range [slider_min <= 0 <= slider_max] and a value in
    it. *)
Theorem connect_bar_bounds (lo hi v : Q) :
  lo <= 0 <= hi -> lo < hi -> lo <= v <= hi ->
  let b := updateConnectElement lo hi (Fin v) in
  bar_left b ≡ Fin (bar_pos lo hi (Qmin 0 v)) /\
  bar_width b ≡ Fin (bar_pos lo hi (Qmax 0 v) - bar_pos lo hi (Qmin 0 v)) /\
  0 <= bar_pos lo hi (Qmin 0 v) /\ bar_pos lo hi (Qmin 0 v) <= bar_pos lo hi (Qmax 0 v) /\
  bar_pos lo hi (Qmax 0 v) <= 100.
Proof.
  intros H0 Hlh Hv. cbv zeta. destruct (bar_pos_ends lo hi Hlh) as [Hlo Hhi].
  pose proof (bar_pos_mono lo hi lo (Qmin 0 v) Hlh ltac:(apply Q.min_glb; lra)).
  pose proof (bar_pos_mono lo hi (Qmin 0 v) (Qmax 0 v) Hlh
                ltac:(apply Qle_trans with 0; [apply Q.le_min_l | apply Q.le_max_l])).
  pose proof (bar_pos_mono lo hi (Qmax 0 v) hi Hlh ltac:(apply Q.max_lub; lra)).
  split_and!; try lra; unfold updateConnectElement, bar_pos;
    (destruct (Qlt_le_dec v 0);
     [rewrite ?(Q.min_r 0 v), ?(Q.max_l 0 v) by lra
     | rewrite ?(Q.min_l 0 v), ?(Q.max_r 0 v) by lra]);
    num_simpl; field; lra.
Qed.

Lemma connect_bar_bounds_witness :
  let b := updateConnectElement (-100) 100 (Fin (-30)) in
  bar_left b ≡ Fin (bar_pos (-100) 100 (Qmin 0 (-30))) /\
  bar_width b ≡ Fin (bar_pos (-100) 100 (Qmax 0 (-30)) - bar_pos (-100) 100 (Qmin 0 (-30))) /\
  0 <= bar_pos (-100) 100 (Qmin 0 (-30)) /\
  bar_pos (-100) 100 (Qmin 0 (-30)) <= bar_pos (-100) 100 (Qmax 0 (-30)) /\
  bar_pos (-100) 100 (Qmax 0 (-30)) <= 100.
Proof. apply connect_bar_bounds; vm_compute; (split || idtac); discriminate. Defined.
