(* ===== verification/Card.v ===== *)
(** * The card: sync controller and slider handlers

    The custom element [WeightedOverrideSliderCard] as a state machine.
    Its instance fields ([config], [isLightEntity], [_hass],
    [_updateTimeout], [isUpdating], [currentSliderValue], and the
    shadow root's content) form the record [Card]; the browser around it
    (pending timers, the clock, and the observable effects: renders,
    service calls and thrown errors) forms [World].  Every entry point
    of the element is an [Event]: [setConfig], [connectedCallback], the
    [hass] setter, the passing of time (which fires due timers), and the
    three noUiSlider events [start], [update] and [change] the rendered
    slider delivers.  [step] runs one event to completion; JavaScript is
    single-threaded, so a run of the card is a list of events.

    A render (Render.v) is one atomic step: the slider library is
    taken as already loaded, so the [await] of [loadNoUiSlider] resumes
    before any other event.  AsyncCard.v models the [await]. *)

From S2P Require Import Prelude Config JsParse HassState ValueMapper ColorDeriver Render.

Local Open Scope Q_scope.

(** ** The element and its world *)

Record Card : Type := {
  config : option CardConfig;
  isLightEntity : bool;
  hass : option Hass;
  updateTimeout : option nat;
  isUpdating : bool;
  currentSliderValue : num;
  view : View
}.

(** What the outside world observes. *)
Inductive Effect : Type :=
| Render (v : View)
| Call (c : ServiceCall)
| Throw (e : JsError).

(** The card, the pending timers (id and due time, in creation order),
    the next timer id, the clock, and the effects so far, most recent
    first. *)
Record World : Type := {
  card : Card;
  timers : list (nat * Z);
  next_timer : nat;
  now : Z;
  trace : list Effect
}.

(** The constructor, lines 2-8. *)
Definition card_init : Card := {|
  config := None; isLightEntity := false; hass := None; updateTimeout := None;
  isUpdating := false; currentSliderValue := Fin 0; view := ViewEmpty |}.

Definition world_init : World := {|
  card := card_init; timers := []; next_timer := 1%nat; now := 0%Z; trace := [] |}.

(** The assignments to the instance fields. *)
Definition set_config (cfg : CardConfig) (c : Card) : Card :=
  {| config := Some cfg; isLightEntity := is_light_entity cfg; hass := hass c;
     updateTimeout := updateTimeout c; isUpdating := isUpdating c;
     currentSliderValue := initial_slider cfg; view := view c |}.

Definition set_hass (h : Hass) (id : nat) (c : Card) : Card :=
  {| config := config c; isLightEntity := isLightEntity c; hass := Some h;
     updateTimeout := Some id; isUpdating := isUpdating c;
     currentSliderValue := currentSliderValue c; view := view c |}.

Definition set_isUpdating (b : bool) (c : Card) : Card :=
  {| config := config c; isLightEntity := isLightEntity c; hass := hass c;
     updateTimeout := updateTimeout c; isUpdating := b;
     currentSliderValue := currentSliderValue c; view := view c |}.

Definition set_slider (v : num) (vw : View) (c : Card) : Card :=
  {| config := config c; isLightEntity := isLightEntity c; hass := hass c;
     updateTimeout := updateTimeout c; isUpdating := isUpdating c;
     currentSliderValue := v; view := vw |}.

Definition set_card (c : Card) (w : World) : World :=
  {| card := c; timers := timers w; next_timer := next_timer w; now := now w;
     trace := trace w |}.

Definition emit (e : Effect) (w : World) : World :=
  {| card := card w; timers := timers w; next_timer := next_timer w; now := now w;
     trace := e :: trace w |}.

(** ** Operations *)

(** [this.render()]: [render] on the fields it reads. *)
Definition render_of (c : Card) : JsError + View :=
  render (config c) (hass c) (currentSliderValue c).

(** Run [render] and record its outcome. *)
Definition do_render (w : World) : World :=
  match render_of (card w) with
  | inl e => emit (Throw e) w
  | inr v => emit (Render v) (set_card (set_slider (currentSliderValue (card w)) v (card w)) w)
  end.

(** [clearTimeout(id)]: removes the timer if it is still pending;
    [clearTimeout(null)] does nothing. *)
Definition clearTimeout (o : option nat) (ts : list (nat * Z)) : list (nat * Z) :=
  match o with
  | Some id => List.filter (fun '(i, _) => negb (Nat.eqb i id)) ts
  | None => ts
  end.

(** The [hass] setter, lines 22-28: store the object, cancel the pending
    timer and start a new one of 500 ms. *)
Definition hass_setter (h : Hass) (w : World) : World :=
  let id := next_timer w in
  {| card := set_hass h id (card w);
     timers := clearTimeout (updateTimeout (card w)) (timers w) ++ [(id, (now w + 500)%Z)];
     next_timer := S id; now := now w; trace := trace w |}.

(** The timer's callback, line 26: render only when no drag is in
    progress (the shadow root always exists). *)
Definition timeout_callback (w : World) : World :=
  if isUpdating (card w) then w else do_render w.

(** The clock moved on by [d], nothing else changed. *)
Definition advanced (d : N) (ts : list (nat * Z)) (w : World) : World :=
  {| card := card w; timers := ts; next_timer := next_timer w;
     now := (now w + Z.of_N d)%Z; trace := trace w |}.

(** The timers due once the clock has moved on by [d] ms, in creation
    order. *)
Definition due_timers (d : N) (w : World) : list (nat * Z) :=
  List.filter (fun '(_, due_t) => (due_t <=? now w + Z.of_N d)%Z) (timers w).

(** The clock moved on by [d] ms, the due timers taken off the queue
    before their callbacks run. *)
Definition clock_advance (d : N) (w : World) : World :=
  advanced d (List.filter (fun '(_, due_t) => negb (due_t <=? now w + Z.of_N d)%Z) (timers w)) w.

(** Time passes by [d] ms: the timers due by then fire, in creation order. *)
Definition elapse (d : N) (w : World) : World :=
  fold_left (fun w' _ => timeout_callback w') (due_timers d w) (clock_advance d w).

(** [setConfig(config)], lines 10-16. *)
Definition setConfig (cfg : CardConfig) (w : World) : World :=
  match check_config cfg with
  | Some e => emit (Throw (SetConfigError e)) w
  | None => set_card (set_config cfg (card w)) w
  end.

(** The slider's [start] handler, line 279. *)
Definition on_start (w : World) : World :=
  set_card (set_isUpdating true (card w)) w.

(** The slider's [update] handler, lines 281-286. *)
Definition on_update (m : Mounted) (values0 : string) (w : World) : World :=
  let v := parseFloat values0 in
  set_card (set_slider v (ViewSlider (updated m v)) (card w)) w.

(** The slider's [change] handler, lines 288-309: clear the flag, store
    the value, read the input entity's state (throwing if it is gone),
    compute the output and write it. *)
Definition on_change (m : Mounted) (values0 : string) (w : World) : World :=
  let v := parseFloat values0 in
  let c1 := set_slider v (view (card w)) (set_isUpdating false (card w)) in
  let w1 := set_card c1 w in
  match hass c1 with
  | None => emit (Throw (TypeError "this._hass")) w1
  | Some h =>
      match states h !! mt_input_entity m with
      | None => emit (Throw (TypeError "this._hass.states[input_entity]")) w1
      | Some st =>
          let inputValue := parseFloat (state st) in
          match config c1 with
          | None => emit (Throw (TypeError "this.config")) w1
          | Some cfg =>
              let outputValue := calculateOutputValue cfg v inputValue in
              emit (Call (output_service_call (isLightEntity c1) (mt_output_entity m)
                                              outputValue)) w1
          end
      end
  end.

(** The entry points of the element. *)
Inductive Event : Type :=
| EvSetConfig (cfg : CardConfig)
| EvConnected
| EvSetHass (h : Hass)
| EvElapse (d : N)
| EvSlideStart
| EvSlideUpdate (values0 : string)
| EvSlideChange (values0 : string).

(** One event, run to completion.  The slider's events only come from
    a mounted slider. *)
Definition step (w : World) (ev : Event) : World :=
  match ev with
  | EvSetConfig cfg => setConfig cfg w
  | EvConnected => do_render w
  | EvSetHass h => hass_setter h w
  | EvElapse d => elapse d w
  | EvSlideStart =>
      match view (card w) with ViewSlider _ => on_start w | _ => w end
  | EvSlideUpdate s =>
      match view (card w) with ViewSlider m => on_update m s w | _ => w end
  | EvSlideChange s =>
      match view (card w) with ViewSlider m => on_change m s w | _ => w end
  end.

Definition run (w : World) (evs : list Event) : World := fold_left step evs w.

(** [getCardSize()], lines 319-321: the height the card asks the
    dashboard for, in rows. *)
Definition getCardSize : nat := 2.

(** The renders among the effects. *)
Definition renders (tr : list Effect) : list View :=
  omap (fun e => match e with Render v => Some v | _ => None end) tr.

(** The service calls among the effects. *)
Definition calls (tr : list Effect) : list ServiceCall :=
  omap (fun e => match e with Call c => Some c | _ => None end) tr.

(** One transition of the card: some event. *)
Definition card_step (w w' : World) : Prop := exists ev, w' = step w ev.

(** The worlds a card can reach from its construction. *)
Definition reachable (w : World) : Prop := star card_step world_init w.

(** The events of the state bus: a new [hass] object, or time passing. *)
Definition bus_event (ev : Event) : bool :=
  match ev with EvSetHass _ | EvElapse _ => true | _ => false end.

(** ** Invariants *)

(** At most one timer is pending, it is the one [_updateTimeout] names,
    and it is due within the next 500 ms. *)
Definition timer_inv (w : World) : Prop :=
  match timers w with
  | [] => True
  | [(id, due)] =>
      updateTimeout (card w) = Some id /\ (now w < due <= now w + 500)%Z
  | _ => False
  end.

(** The configuration the card holds passed [setConfig]'s checks. *)
Definition config_checked (w : World) : Prop :=
  forall cfg, config (card w) = Some cfg -> check_config cfg = None.

(** The value label and the connect bar of a mounted slider show the
    same value. *)
Definition display_consistent (c : Card) : Prop := view_consistent (view c).

(** The part of the world the timers live in. *)
Definition timing (w : World) : list (nat * Z) * nat * Z * option nat :=
  (timers w, next_timer w, now w, updateTimeout (card w)).
(** The burst of [hass] updates of the debounce claim: each update but
    the last is followed by less than 500 ms, the last by 500 ms. *)
Definition burst (hs : list (Hass * N)) (h : Hass) : list Event :=
  flat_map (fun '(hh, d) => [EvSetHass hh; EvElapse d]) hs ++ [EvSetHass h; EvElapse 500].
(** A render mounts the slider at the card's current value. *)
Definition starts_at (x : num) (e : Effect) : Prop :=
  forall m, e = Render (ViewSlider m) -> mt_start m = x.

(** ** Scenarios *)

(** The card configured for the end-to-end example, given a [hass]
    object whose sensor reads ["40"], and attached to the page. *)
Definition setup_events : list Event :=
  [EvSetConfig example_config; EvSetHass (hass_with_input "40"); EvConnected].

Definition demo_mounted : World := run world_init setup_events.

(** The same card while the user is dragging. *)
Definition demo_dragging : World := run world_init (setup_events ++ [EvSlideStart]).

(** ** Frame lemmas *)

Lemma timer_inv_timing w w' : timing w' = timing w -> timer_inv w -> timer_inv w'.
Proof. unfold timing, timer_inv. intros [= -> _ -> ->]. done. Qed.

Lemma do_render_timing w : timing (do_render w) = timing w.
Proof. unfold do_render. by destruct (render_of (card w)). Qed.

Lemma timeout_callback_timing w : timing (timeout_callback w) = timing w.
Proof. unfold timeout_callback. case_match; [done | apply do_render_timing]. Qed.


(** Firing a list of timers does nothing at all while a drag is in progress. *)
Lemma fire_while_updating (l : list (nat * Z)) w :
  isUpdating (card w) = true -> fold_left (fun w' _ => timeout_callback w') l w = w.
Proof.
  intros Hu. revert w Hu. induction l as [|x l IH]; intros w Hu; [done|]. cbn.
  unfold timeout_callback at 2. rewrite Hu. by apply IH.
Qed.

(** Every event but the bus events leaves the timing alone. *)
Lemma step_timing w ev : bus_event ev = false -> timing (step w ev) = timing w.
Proof.
  destruct ev; cbn; try done; intros _.
  - unfold setConfig. by case_match.
  - apply do_render_timing.
  - by case_match.
  - by case_match.
  - case_match; try done. unfold on_change. by repeat case_match.
Qed.

(** The setter leaves exactly one timer, due in 500 ms. *)
Lemma hass_setter_timers h w :
  timer_inv w -> timers (hass_setter h w) = [(next_timer w, (now w + 500)%Z)].
Proof.
  unfold timer_inv, hass_setter. cbn.
  destruct (timers w) as [|[id due] [|? ?]]; try done.
  - intros _. by destruct (updateTimeout (card w)).
  - intros [-> _]. cbn. by rewrite Nat.eqb_refl.
Qed.

(** Time passing before the pending timer is due changes nothing but
    the clock. *)
Lemma elapse_before_due d w id due :
  timers w = [(id, due)] -> (now w + Z.of_N d < due)%Z ->
  elapse d w = advanced d [(id, due)] w.
Proof.
  intros Ht Hd. unfold elapse, due_timers, clock_advance. rewrite Ht. cbn.
  destruct (Z.leb_spec due (now w + Z.of_N d)); [lia|]. done.
Qed.

(** Time passing beyond the due time fires the timer once. *)
Lemma elapse_fires d w id due :
  timers w = [(id, due)] -> (due <= now w + Z.of_N d)%Z ->
  elapse d w = timeout_callback (advanced d [] w).
Proof.
  intros Ht Hd. unfold elapse, due_timers, clock_advance. rewrite Ht. cbn.
  destruct (Z.leb_spec due (now w + Z.of_N d)); [|lia]. done.
Qed.

Lemma elapse_idle d w : timers w = [] -> elapse d w = advanced d [] w.
Proof. intros Ht. unfold elapse, due_timers, clock_advance. by rewrite Ht. Qed.

(** Every event keeps at most one timer pending, the one
    [_updateTimeout] names, due within 500 ms. *)
Lemma step_timer_inv w ev : timer_inv w -> timer_inv (step w ev).
Proof.
  intros Hinv. destruct (bus_event ev) eqn:E.
  2: { eapply timer_inv_timing; [by apply step_timing | done]. }
  destruct ev; try discriminate; cbn.
  - unfold timer_inv. rewrite hass_setter_timers by done. cbn. split; [done | lia].
  - unfold timer_inv in Hinv.
    destruct (timers w) as [|[id due] [|? ?]] eqn:Ht; try done.
    + rewrite elapse_idle by done. by unfold timer_inv.
    + destruct (Z_lt_le_dec (now w + Z.of_N d) due).
      * rewrite (elapse_before_due _ _ id due) by done. unfold timer_inv. cbn.
        destruct Hinv as [Hid Hdue]. split; [done | lia].
      * rewrite (elapse_fires _ _ id due) by done.
        eapply timer_inv_timing; [apply timeout_callback_timing | by unfold timer_inv].
Qed.

(** The [change] handler records a write or an error, never a render,
    and leaves the timers alone. *)
Lemma on_change_effect m s w :
  exists e, on_change m s w = emit e (set_card (set_slider (parseFloat s) (view (card w))
                                                (set_isUpdating false (card w))) w) /\
            forall v, e <> Render v.
Proof. unfold on_change. cbn. repeat case_match; eexists; (split; [reflexivity | done]). Qed.

(** ** Invariants of the card's fields

    A property of the card record that every entry point keeps holds
    in every reachable state.  The hypotheses name the state changes of
    the entry points: a render, [setConfig]'s assignments, the [hass]
    setter's, and the three slider handlers. *)
Section CardInvariant.
Variable P : Card -> Prop.
Hypothesis P_render : forall w, P (card w) -> P (card (do_render w)).
Hypothesis P_config : forall cfg c, check_config cfg = None -> P c -> P (set_config cfg c).
Hypothesis P_hass : forall h id c, P c -> P (set_hass h id c).
Hypothesis P_start : forall m c, view c = ViewSlider m -> P c -> P (set_isUpdating true c).
Hypothesis P_update : forall m s w, view (card w) = ViewSlider m -> P (card w) ->
  P (card (on_update m s w)).
Hypothesis P_change : forall m s c, view c = ViewSlider m -> P c ->
  P (set_slider (parseFloat s) (view c) (set_isUpdating false c)).

Lemma fire_card_invariant (l : list (nat * Z)) w :
  P (card w) -> P (card (fold_left (fun w' _ => timeout_callback w') l w)).
Proof.
  revert w. induction l as [|x l IH]; intros w Hw; [done|]. cbn. apply IH.
  unfold timeout_callback. case_match; [done | by apply P_render].
Qed.

Lemma step_card_invariant w ev : P (card w) -> P (card (step w ev)).
Proof.
  intros Hw. destruct ev as [cfg| |h|d| |s|s]; cbn.
  - unfold setConfig. destruct (check_config cfg) eqn:E; [done|]. by apply P_config.
  - by apply P_render.
  - by apply P_hass.
  - by apply fire_card_invariant.
  - case_match; [done | done | done |]. by eapply P_start.
  - case_match; [done | done | done |]. by apply P_update.
  - case_match; [done | done | done |].
    destruct (on_change_effect m s w) as (e & -> & _). by eapply P_change.
Qed.

End CardInvariant.

(** Every event keeps the configuration a checked one. *)
Lemma step_config_checked w ev : config_checked w -> config_checked (step w ev).
Proof.
  refine (step_card_invariant
    (fun c => forall cfg, config c = Some cfg -> check_config cfg = None) _ _ _ _ _ _ w ev).
  - intros w' Hw cfg. unfold do_render. case_match; apply Hw.
  - intros cfg c Hc _ cfg' [= <-]. done.
  - done.
  - done.
  - done.
  - done.
Qed.

(** Every event keeps the label and the bar of a mounted slider in
    step. *)
Lemma step_display_consistent w ev :
  display_consistent (card w) -> display_consistent (card (step w ev)).
Proof.
  refine (step_card_invariant display_consistent _ _ _ _ _ _ w ev).
  - intros w' Hw. unfold do_render. destruct (render_of (card w')) eqn:E; [done|].
    exact (render_consistent _ _ _ _ E).
  - done.
  - done.
  - done.
  - intros m s' w' _ _. unfold display_consistent. cbn. by eexists.
  - done.
Qed.

Lemma run_app w l1 l2 : run w (l1 ++ l2) = run (run w l1) l2.
Proof. apply fold_left_app. Qed.

(** A bus event during a drag changes no effect, flag, value or view. *)
Lemma bus_step_updating w ev :
  bus_event ev = true -> isUpdating (card w) = true ->
  trace (step w ev) = trace w /\ isUpdating (card (step w ev)) = true /\
  currentSliderValue (card (step w ev)) = currentSliderValue (card w) /\
  view (card (step w ev)) = view (card w).
Proof.
  intros Hb Hu. destruct ev; try discriminate; cbn; [done|].
  unfold elapse, due_timers, clock_advance. rewrite fire_while_updating by done. done.
Qed.

(** ... and so does any run of bus events. *)
Lemma bus_run_updating w evs :
  isUpdating (card w) = true -> forallb bus_event evs = true ->
  let w' := run w evs in
  trace w' = trace w /\ isUpdating (card w') = true /\
  currentSliderValue (card w') = currentSliderValue (card w) /\
  view (card w') = view (card w).
Proof.
  revert w. induction evs as [|ev evs IH]; intros w Hu Hall; cbv zeta; [done|].
  apply andb_prop in Hall as [Hev Hall].
  destruct (bus_step_updating w ev Hev Hu) as (Ht & Hu' & Hv & Hview).
  destruct (IH (step w ev) Hu' Hall) as (Ht2 & Hu2 & Hv2 & Hview2).
  change (run w (ev :: evs)) with (run (step w ev) evs).
  rewrite Ht2, Hv2, Hview2. done.
Qed.

(** A new [hass] followed by less than 500 ms changes nothing but the
    stored object, the timer and the clock. *)
Lemma set_then_wait_short w h d :
  timer_inv w -> (d < 500)%N ->
  run w [EvSetHass h; EvElapse d] =
  advanced d [(next_timer w, (now w + 500)%Z)] (hass_setter h w).
Proof.
  intros Hinv Hd. change (run w _) with (elapse d (hass_setter h w)).
  apply (elapse_before_due _ _ (next_timer w) (now w + 500)%Z).
  - by apply hass_setter_timers.
  - cbn. lia.
Qed.

(** The last update of a burst, then 500 ms: exactly one render. *)
Lemma set_then_wait_full w h cfg :
  timer_inv w -> isUpdating (card w) = false -> config (card w) = Some cfg ->
  exists v, run w [EvSetHass h; EvElapse 500] =
            emit (Render v) (set_card (set_slider (currentSliderValue (card w)) v
                                        (set_hass h (next_timer w) (card w)))
                                      (advanced 500 [] (hass_setter h w))) /\
            render (Some cfg) (Some h) (currentSliderValue (card w)) = inr v.
Proof.
  intros Hinv Hu Hc. change (run w _) with (elapse 500 (hass_setter h w)).
  rewrite (elapse_fires _ _ (next_timer w) (now w + 500)%Z); cycle 1.
  { by apply hass_setter_timers. }
  { unfold hass_setter. cbn [now]. lia. }
  destruct (render_ok cfg h (currentSliderValue (card w))) as [v Hv].
  exists v. split; [|done]. unfold timeout_callback, do_render, render_of. cbn.
  by rewrite Hu, Hc, Hv.
Qed.

(** ** Properties of the sync controller *)

(** The timer invariant along every run. *)
Lemma timer_inv_reachable (w : World) : reachable w -> timer_inv w.
Proof.
  apply star_invariant; [|by unfold timer_inv].
  intros x y Hx [ev ->]. by apply step_timer_inv.
Qed.

(** C3: Every reachable state has at most one pending timer, the one
    [_updateTimeout] names, due within the next 500 ms. *)
Theorem reachable_timer_inv (w : World) : reachable w -> timer_inv w.
Proof. apply timer_inv_reachable. Qed.

(** C1: While a drag is in progress ([isUpdating]), any number of state
    bus events ([hass] updates and timers firing) produce no effect at
    all (no render, no write) and leave the flag, the slider value and
    the view unchanged. *)
Theorem no_render_while_interacting (w : World) (evs : list Event) :
  isUpdating (card w) = true -> forallb bus_event evs = true ->
  let w' := run w evs in
  trace w' = trace w /\ isUpdating (card w') = true /\
  currentSliderValue (card w') = currentSliderValue (card w) /\
  view (card w') = view (card w).
Proof. apply bus_run_updating. Qed.

(** C2: Debounce: from an idle configured card, a burst of [hass]
    updates each less than 500 ms after the previous one, followed by
    500 quiet ms, produces exactly one effect: one render, computed from
    the last [hass] object. *)
Theorem debounce_coalesce (w : World) (cfg : CardConfig) (hs : list (Hass * N)) (h : Hass) :
  timer_inv w -> isUpdating (card w) = false -> config (card w) = Some cfg ->
  Forall (fun '(_, d) => (d < 500)%N) hs ->
  let w' := run w (burst hs h) in
  exists v, trace w' = Render v :: trace w /\ render_of (card w') = inr v /\
            hass (card w') = Some h.
Proof.
  intros Hinv Hu Hc Hhs. unfold burst. revert w Hinv Hu Hc.
  induction Hhs as [|[hh d] hs Hd Hhs IH]; intros w Hinv Hu Hc; cbn [flat_map app].
  - destruct (set_then_wait_full w h cfg Hinv Hu Hc) as (v & Hrun & Hv).
    exists v. rewrite Hrun. cbn. split; [done|]. split; [|done].
    unfold render_of. cbn. by rewrite Hc.
  - change (EvSetHass hh :: EvElapse d :: ?l) with ([EvSetHass hh; EvElapse d] ++ l).
    rewrite run_app, set_then_wait_short by done.
    destruct (IH (advanced d [(next_timer w, (now w + 500)%Z)] (hass_setter hh w)))
      as (v & Ht & Hr & Hh); [| done | done |].
    { unfold timer_inv. cbn. split; [done | lia]. }
    exists v. split_and!; [by rewrite Ht | done | done].
Qed.

(** The write of the [change] handler. *)
Lemma change_commit (w : World) (m : Mounted) (s : string) (h : Hass)
    (cfg : CardConfig) (st : EntityState) :
  view (card w) = ViewSlider m -> hass (card w) = Some h -> config (card w) = Some cfg ->
  states h !! mt_input_entity m = Some st ->
  let w' := step w (EvSlideChange s) in
  trace w' = Call (output_service_call (isLightEntity (card w)) (mt_output_entity m)
                     (calculateOutputValue cfg (parseFloat s) (parseFloat (state st))))
             :: trace w /\
  isUpdating (card w') = false /\ currentSliderValue (card w') = parseFloat s.
Proof.
  intros Hv Hh Hc Hst. cbn. rewrite Hv. unfold on_change. cbn. rewrite Hh, Hst, Hc. done.
Qed.

(** C4: Drag end: the [change] handler clears the flag, stores the final
    value, and issues exactly one write: the mapper's output for the
    final slider value and the input entity's current state, sent to the
    output entity the rendered slider captured. *)
Theorem slide_change_commit (w : World) (m : Mounted) (s : string) (h : Hass)
    (cfg : CardConfig) (st : EntityState) :
  view (card w) = ViewSlider m -> hass (card w) = Some h -> config (card w) = Some cfg ->
  states h !! mt_input_entity m = Some st ->
  let w' := step w (EvSlideChange s) in
  trace w' = Call (output_service_call (isLightEntity (card w)) (mt_output_entity m)
                     (calculateOutputValue cfg (parseFloat s) (parseFloat (state st))))
             :: trace w /\
  isUpdating (card w') = false /\ currentSliderValue (card w') = parseFloat s.
Proof. apply change_commit. Qed.

(** C19: Drag end with the input entity gone from [hass.states]: reading
    its [state] throws a [TypeError], so nothing is written, after the
    flag has been cleared and the value stored. *)
Theorem slide_change_missing_input (w : World) (m : Mounted) (s : string) (h : Hass) :
  view (card w) = ViewSlider m -> hass (card w) = Some h ->
  states h !! mt_input_entity m = None ->
  let w' := step w (EvSlideChange s) in
  trace w' = Throw (TypeError "this._hass.states[input_entity]") :: trace w /\
  isUpdating (card w') = false /\ currentSliderValue (card w') = parseFloat s.
Proof.
  intros Hv Hh Hst. cbn. rewrite Hv. unfold on_change. cbn. by rewrite Hh, Hst.
Qed.

(** C18: Drag end on a light whose input entity reports a state that is
    not a number (such as ["unavailable"]): the card turns the light on
    with [brightness_pct: NaN] instead of degrading. *)
Theorem slide_change_nan_input (w : World) (m : Mounted) (s : string) (h : Hass)
    (cfg : CardConfig) (st : EntityState) :
  view (card w) = ViewSlider m -> hass (card w) = Some h -> config (card w) = Some cfg ->
  isLightEntity (card w) = true ->
  states h !! mt_input_entity m = Some st -> parseFloat (state st) = NaN ->
  trace (step w (EvSlideChange s)) = Call (LightTurnOn (mt_output_entity m) NaN) :: trace w.
Proof.
  intros Hv Hh Hc Hl Hst Hnan.
  destruct (change_commit w m s h cfg st Hv Hh Hc Hst) as [-> _].
  by rewrite Hnan, calc_nan_input, Hl.
Qed.

(** C7: From construction to the first write: a card configured with
    [cfg], given a [hass] object in which its input entity reads [st],
    attached to the page and dragged to the value string [s] writes
    exactly once, the mapper's output for [parseFloat s] and the input's
    state, through the service [cfg] selects, to the configured output
    entity. *)
Theorem end_to_end_scenario (cfg : CardConfig) (h : Hass) (e o : string) (st : EntityState)
    (s : string) :
  check_config cfg = None -> input_entity cfg = Some e -> output_entity cfg = Some o ->
  states h !! e = Some st ->
  calls (trace (run world_init
    [EvSetConfig cfg; EvSetHass h; EvConnected; EvSlideStart; EvSlideUpdate s; EvSlideChange s]))
  = [output_service_call (is_light_entity cfg) o
       (calculateOutputValue cfg (parseFloat s) (parseFloat (state st)))].
Proof.
  intros Hc He Ho Hs.
  destruct (render_found_entities cfg h (initial_slider cfg) e st He Hs) as (m & Hr & Hi & Hout).
  cbn [run fold_left step]. unfold setConfig. rewrite Hc.
  unfold do_render, render_of. cbn. rewrite Hr. cbn.
  unfold on_change. cbn. rewrite Hi, Hs, Hout, Ho. done.
Qed.

Lemma do_render_slider w :
  currentSliderValue (card (do_render w)) = currentSliderValue (card w) /\
  exists e, trace (do_render w) = e :: trace w /\ starts_at (currentSliderValue (card w)) e.
Proof.
  unfold do_render. destruct (render_of (card w)) as [err|v] eqn:E; cbn.
  - split; [done|]. eexists; split; [done|]. by intros m ?.
  - split; [done|]. eexists; split; [done|]. intros m [= ->]. exact (render_start _ _ _ _ E).
Qed.

(** Firing timers keeps the value and renders the slider at it. *)
Lemma fire_slider (l : list (nat * Z)) w :
  let w' := fold_left (fun w' _ => timeout_callback w') l w in
  currentSliderValue (card w') = currentSliderValue (card w) /\
  exists new, trace w' = new ++ trace w /\ Forall (starts_at (currentSliderValue (card w))) new.
Proof.
  revert w. induction l as [|x l IH]; intros w; cbv zeta; cbn [fold_left].
  { split; [done|]. by exists []. }
  assert (Hcb : currentSliderValue (card (timeout_callback w)) = currentSliderValue (card w) /\
                exists new, trace (timeout_callback w) = new ++ trace w /\
                            Forall (starts_at (currentSliderValue (card w))) new).
  { unfold timeout_callback. case_match; [split; [done|]; by exists [] |].
    destruct (do_render_slider w) as (Hv & e & He & Hs). split; [done|].
    exists [e]. split; [done|]. by constructor. }
  destruct Hcb as (Hv1 & new1 & Ht1 & Hs1).
  destruct (IH (timeout_callback w)) as (Hv2 & new2 & Ht2 & Hs2).
  rewrite Hv1 in Hv2, Hs2. split; [done|].
  exists (new2 ++ new1). rewrite Ht2, Ht1, app_assoc. split; [done|].
  by apply Forall_app.
Qed.

Lemma bus_step_slider w ev :
  bus_event ev = true ->
  currentSliderValue (card (step w ev)) = currentSliderValue (card w) /\
  exists new, trace (step w ev) = new ++ trace w /\
              Forall (starts_at (currentSliderValue (card w))) new.
Proof.
  intros Hb. destruct ev; try discriminate; cbn.
  - split; [done|]. by exists [].
  - unfold elapse, due_timers, clock_advance. exact (fire_slider _ _).
Qed.

(** C8: State bus events never move the slider: after any number of
    [hass] updates and timers, [currentSliderValue] is unchanged and
    every render they cause mounts the slider at that value (the user's
    override is kept, not re-seeded). *)
Theorem bus_preserves_slider (w : World) (evs : list Event) :
  forallb bus_event evs = true ->
  let w' := run w evs in
  currentSliderValue (card w') = currentSliderValue (card w) /\
  exists new, trace w' = new ++ trace w /\
              Forall (starts_at (currentSliderValue (card w))) new.
Proof.
  revert w. induction evs as [|ev evs IH]; intros w Hall; cbv zeta.
  { split; [done|]. by exists []. }
  apply andb_prop in Hall as [Hev Hall].
  change (run w (ev :: evs)) with (run (step w ev) evs).
  destruct (bus_step_slider w ev Hev) as (Hv1 & new1 & Ht1 & Hs1).
  destruct (IH (step w ev) Hall) as (Hv2 & new2 & Ht2 & Hs2).
  rewrite Hv1 in Hv2, Hs2. split; [done|].
  exists (new2 ++ new1). rewrite Ht2, Ht1, app_assoc. split; [done|].
  by apply Forall_app.
Qed.

(** C15: Degraded display and recovery: when the input entity is missing
    at render time the card shows the placeholder, and once it is back
    the next resync mounts the slider at the same override value. *)
Theorem degraded_then_recover (w : World) (cfg : CardConfig) (e : string) (h1 h2 : Hass) :
  timer_inv w -> isUpdating (card w) = false -> config (card w) = Some cfg ->
  input_entity cfg = Some e -> states h1 !! e = None -> is_Some (states h2 !! e) ->
  let w' := run w [EvSetHass h1; EvElapse 500; EvSetHass h2; EvElapse 500] in
  exists m, trace w' = Render (ViewSlider m) :: Render ViewNotFound :: trace w /\
            mt_start m = currentSliderValue (card w) /\
            currentSliderValue (card w') = currentSliderValue (card w).
Proof.
  intros Hinv Hu Hc He Hn Hs. cbv zeta.
  change [EvSetHass h1; EvElapse 500; EvSetHass h2; EvElapse 500]
    with ([EvSetHass h1; EvElapse 500] ++ [EvSetHass h2; EvElapse 500]).
  rewrite run_app.
  destruct (set_then_wait_full w h1 cfg Hinv Hu Hc) as (v1 & -> & Hv1).
  rewrite (render_not_found cfg h1 _ e) in Hv1 by done. simplify_eq.
  match goal with |- context [run ?w1 _] => set (w1' := w1) end.
  destruct (set_then_wait_full w1' h2 cfg) as (v2 & -> & Hv2);
    [by unfold timer_inv | done | done |].
  destruct (render_found cfg h2 (currentSliderValue (card w1')) e) as (m & Hm & Hst);
    [done..|].
  rewrite Hm in Hv2. simplify_eq. by exists m.
Qed.

Lemma renders_emit e tr : (forall v, e <> Render v) -> renders (e :: tr) = renders tr.
Proof. intros He. destruct e; cbn; [by destruct (He v) | done | done]. Qed.

(** C16: A resync vetoed by a drag is lost: the timer fires during the
    drag and is dropped, [start] left it pending and nothing reschedules
    it, so after the drag ends no render happens, however long the card
    waits, until the next [hass] update.  (The specification cancels the
    timer at drag start, with the same outcome.) *)
Theorem vetoed_resync_lost (w : World) (m : Mounted) (s : string) (n : N) :
  view (card w) = ViewSlider m -> timer_inv w ->
  let w' := run w [EvSlideStart; EvElapse 500; EvSlideChange s; EvElapse n] in
  timers (step w EvSlideStart) = timers w /\
  renders (trace w') = renders (trace w) /\ timers w' = [].
Proof.
  intros Hv Hinv. cbv zeta. cbn [run fold_left step]. rewrite Hv. split; [done|].
  set (w1 := on_start w).
  assert (Hw2 : elapse 500 w1 = advanced 500 [] w1).
  { unfold elapse, due_timers, clock_advance. rewrite fire_while_updating by done. unfold timer_inv in Hinv.
    subst w1. cbn. destruct (timers w) as [|[id due] [|? ?]]; try done.
    destruct Hinv as [_ Hdue]. cbn. by destruct (Z.leb_spec due (now w + 500)); [|lia]. }
  rewrite Hw2. cbn [advanced card]. subst w1. cbn [on_start set_card card view set_isUpdating].
  rewrite Hv. destruct (on_change_effect m s (advanced 500 [] (on_start w))) as (e & He & Hne).
  rewrite He, elapse_idle by done. cbn [advanced emit trace timers set_card].
  split; [|done]. by rewrite renders_emit.
Qed.

(** C21: The slider's handlers keep the [output_entity] of the render
    that created them, while [isLightEntity] and the mapper read the
    current configuration: after [setConfig(cfg)], a drag released before
    the next render writes the output [cfg] computes, through the
    service [cfg] selects, to the entity of the old configuration. *)
Theorem stale_output_entity (w : World) (m : Mounted) (cfg : CardConfig) (h : Hass)
    (st : EntityState) (s : string) :
  view (card w) = ViewSlider m -> hass (card w) = Some h -> check_config cfg = None ->
  states h !! mt_input_entity m = Some st ->
  trace (run w [EvSetConfig cfg; EvSlideChange s]) =
    Call (output_service_call (is_light_entity cfg) (mt_output_entity m)
            (calculateOutputValue cfg (parseFloat s) (parseFloat (state st)))) :: trace w.
Proof.
  intros Hv Hh Hc Hs. cbn [run fold_left step]. unfold setConfig. rewrite Hc. cbn.
  rewrite Hv. unfold on_change. cbn. by rewrite Hh, Hs.
Qed.

(** C29: Every reachable card holds a configuration that passed
    [setConfig]'s checks, so the entity ids a render captures are the
    configured ones. *)
Theorem reachable_config_checked (w : World) : reachable w -> config_checked w.
Proof.
  apply star_invariant; [|by intros cfg].
  intros x y Hx [ev ->]. by apply step_config_checked.
Qed.

(** C13: In every reachable state, a mounted slider's value label and
    connect bar show the same value: [render] and the [update] handler
    redraw both from one value, and no other entry point touches
    either. *)
Theorem reachable_display_consistent (w : World) :
  reachable w -> display_consistent (card w).
Proof.
  apply (star_invariant card_step (fun w => display_consistent (card w))); [|done].
  intros x y Hx [ev ->]. by apply step_display_consistent.
Qed.

(** C20: Attached to the page before its first [hass] object, the card's
    [connectedCallback] render fails reading [this._hass.states] (a
    [TypeError]) and nothing is mounted; the slider only appears with
    the render of the first [hass] update, 500 ms later. *)
Theorem connected_before_hass (w : World) (cfg : CardConfig) (h : Hass) (e : string) :
  timer_inv w -> isUpdating (card w) = false -> config (card w) = Some cfg ->
  hass (card w) = None -> input_entity cfg = Some e -> is_Some (states h !! e) ->
  step w EvConnected = emit (Throw (TypeError "this._hass")) w /\
  exists m, trace (run w [EvConnected; EvSetHass h; EvElapse 500])
            = Render (ViewSlider m) :: Throw (TypeError "this._hass") :: trace w.
Proof.
  intros Hinv Hu Hc Hh He Hs.
  assert (H1 : step w EvConnected = emit (Throw (TypeError "this._hass")) w).
  { cbn. unfold do_render, render_of, render. by rewrite Hc, Hh. }
  split; [done|].
  change (run w _) with (run (step w EvConnected) [EvSetHass h; EvElapse 500]).
  rewrite H1.
  destruct (set_then_wait_full (emit (Throw (TypeError "this._hass")) w) h cfg)
    as (v & -> & Hv); [by eapply timer_inv_timing | done | done |].
  destruct (render_found cfg h (currentSliderValue (card w)) e) as (m & Hm & _);
    [done..|].
  cbn [card emit] in Hv. rewrite Hm in Hv. simplify_eq. by exists m.
Qed.

(** C17: Drag start does not cancel the pending resync (the
    specification says it does): after a [hass] update, a drag that
    starts and ends before the timer is due leaves the timer pending,
    and it fires after the release, re-rendering the card from the
    update that preceded the drag. *)
Theorem short_drag_keeps_timer (w : World) (m : Mounted) (cfg : CardConfig) (h : Hass)
    (s : string) (d1 d2 : N) :
  timer_inv w -> isUpdating (card w) = false -> view (card w) = ViewSlider m ->
  config (card w) = Some cfg -> (d1 + d2 < 500)%N ->
  let w' := run w [EvSetHass h; EvElapse d1; EvSlideStart; EvElapse d2; EvSlideChange s;
                   EvElapse 500] in
  exists v, renders (trace w') = v :: renders (trace w).
Proof.
  intros Hinv Hu Hv Hc Hd. cbv zeta.
  change [EvSetHass h; EvElapse d1; EvSlideStart; EvElapse d2; EvSlideChange s; EvElapse 500]
    with ([EvSetHass h; EvElapse d1] ++ [EvSlideStart; EvElapse d2; EvSlideChange s; EvElapse 500]).
  rewrite run_app, set_then_wait_short by (done || lia).
  set (w1 := advanced d1 [(next_timer w, (now w + 500)%Z)] (hass_setter h w)).
  change (run w1 _) with
    (step (step (step (step w1 EvSlideStart) (EvElapse d2)) (EvSlideChange s)) (EvElapse 500)).
  assert (Hv1 : view (card w1) = ViewSlider m) by exact Hv.
  cbn [step]. rewrite Hv1.
  assert (Hd' : (Z.of_N d1 + Z.of_N d2 < 500)%Z).
  { rewrite <- N2Z.inj_add. change 500%Z with (Z.of_N 500). by apply N2Z.inj_lt. }
  rewrite (elapse_before_due d2 (on_start w1) (next_timer w) (now w + 500)%Z)
    by (done || (cbn; lia)).
  cbn [advanced on_start set_card card set_isUpdating view]. rewrite Hv1.
  match goal with |- context [on_change m s ?w2] =>
    destruct (on_change_effect m s w2) as (e & -> & Hne) end.
  rewrite (elapse_fires 500 _ (next_timer w) (now w + 500)%Z) by (cbn; done || lia).
  destruct (render_ok cfg h (parseFloat s)) as [v Hr].
  exists v. unfold timeout_callback, do_render, render_of. cbn -[renders].
  rewrite Hc, Hr. cbn -[renders].
  change (renders (Render v :: ?l)) with (v :: renders l). by rewrite renders_emit.
Qed.

(** Every run from the construction of the card is reachable. *)
Lemma run_reachable (evs : list Event) : reachable (run world_init evs).
Proof.
  unfold reachable. rewrite <- (rev_involutive evs).
  induction (rev evs) as [|ev l IH]; [apply star_refl|].
  cbn [rev]. rewrite run_app. eapply star_right; [exact IH | by exists ev].
Qed.

(** ** Witnesses *)

Lemma reachable_timer_inv_witness : timer_inv demo_dragging.
Proof. apply reachable_timer_inv, run_reachable. Defined.

Lemma no_render_while_interacting_witness :
  let w' := run demo_dragging [EvSetHass (hass_with_input "41"); EvElapse 500;
                               EvSetHass (hass_with_input "42"); EvElapse 1000] in
  trace w' = trace demo_dragging /\ isUpdating (card w') = true /\
  currentSliderValue (card w') = currentSliderValue (card demo_dragging) /\
  view (card w') = view (card demo_dragging).
Proof. apply no_render_while_interacting; vm_compute; reflexivity. Defined.

Lemma debounce_coalesce_witness :
  let w := run world_init [EvSetConfig example_config] in
  let w' := run w (burst [(hass_with_input "40", 100%N); (hass_with_input "41", 499%N)]
                         (hass_with_input "42")) in
  exists v, trace w' = Render v :: trace w /\ render_of (card w') = inr v /\
            hass (card w') = Some (hass_with_input "42").
Proof.
  apply (debounce_coalesce _ example_config).
  - apply timer_inv_reachable, run_reachable.
  - reflexivity.
  - reflexivity.
  - repeat constructor.
Defined.

Lemma slide_change_commit_witness :
  exists m st, view (card demo_mounted) = ViewSlider m /\
  let w' := step demo_mounted (EvSlideChange "50.00") in
  trace w' = Call (output_service_call (isLightEntity (card demo_mounted)) (mt_output_entity m)
                     (calculateOutputValue example_config (parseFloat "50.00")
                                           (parseFloat (state st))))
             :: trace demo_mounted /\
  isUpdating (card w') = false /\ currentSliderValue (card w') = parseFloat "50.00".
Proof.
  eexists _, _. split; [vm_compute; reflexivity|].
  apply (slide_change_commit _ _ _ (hass_with_input "40")); vm_compute; reflexivity.
Defined.

Lemma slide_change_missing_input_witness :
  let w' := step (run demo_mounted [EvSetHass hass_without_input]) (EvSlideChange "10") in
  trace w' = Throw (TypeError "this._hass.states[input_entity]")
             :: trace (run demo_mounted [EvSetHass hass_without_input]) /\
  isUpdating (card w') = false /\ currentSliderValue (card w') = parseFloat "10".
Proof.
  eapply (slide_change_missing_input _ _ _ hass_without_input); vm_compute; reflexivity.
Defined.

Lemma slide_change_nan_input_witness :
  exists m, view (card (run demo_mounted [EvSetHass (hass_with_input "unavailable")]))
              = ViewSlider m /\
  trace (step (run demo_mounted [EvSetHass (hass_with_input "unavailable")])
              (EvSlideChange "50.00")) =
  Call (LightTurnOn (mt_output_entity m) NaN)
    :: trace (run demo_mounted [EvSetHass (hass_with_input "unavailable")]).
Proof.
  eexists. split; [vm_compute; reflexivity|].
  apply (slide_change_nan_input _ _ _ (hass_with_input "unavailable") example_config
           {| state := "unavailable"; attributes := no_attributes |});
    vm_compute; reflexivity.
Defined.

Lemma bus_preserves_slider_witness :
  let w := run demo_mounted [EvSlideUpdate "30.00"; EvSlideChange "30.00"] in
  let w' := run w [EvSetHass (hass_with_input "55"); EvElapse 500] in
  currentSliderValue (card w') = currentSliderValue (card w) /\
  exists new, trace w' = new ++ trace w /\ Forall (starts_at (currentSliderValue (card w))) new.
Proof. apply bus_preserves_slider. reflexivity. Defined.

Lemma degraded_then_recover_witness :
  let w := run world_init [EvSetConfig example_config] in
  let w' := run w [EvSetHass hass_without_input; EvElapse 500;
                   EvSetHass (hass_with_input "40"); EvElapse 500] in
  exists m, trace w' = Render (ViewSlider m) :: Render ViewNotFound :: trace w /\
            mt_start m = currentSliderValue (card w) /\
            currentSliderValue (card w') = currentSliderValue (card w).
Proof.
  apply (degraded_then_recover _ example_config "sensor.lux"); try reflexivity;
    try (apply timer_inv_reachable, run_reachable); vm_compute; by eexists.
Defined.

Lemma vetoed_resync_lost_witness :
  let w := run demo_mounted [EvSetHass (hass_with_input "41")] in
  let w' := run w [EvSlideStart; EvElapse 500; EvSlideChange "20.00"; EvElapse 60000] in
  timers (step w EvSlideStart) = timers w /\
  renders (trace w') = renders (trace w) /\ timers w' = [].
Proof.
  eapply vetoed_resync_lost; [vm_compute; reflexivity|].
  apply timer_inv_reachable. unfold demo_mounted. rewrite <- run_app. apply run_reachable.
Defined.

Lemma reachable_config_checked_witness : config_checked demo_mounted.
Proof. apply reachable_config_checked, run_reachable. Defined.

Lemma reachable_display_consistent_witness : display_consistent (card demo_dragging).
Proof. apply reachable_display_consistent, run_reachable. Defined.

Lemma connected_before_hass_witness :
  exists m, trace (run (run world_init [EvSetConfig example_config])
                       [EvConnected; EvSetHass (hass_with_input "40"); EvElapse 500])
            = [Render (ViewSlider m); Throw (TypeError "this._hass")].
Proof.
  apply (connected_before_hass (run world_init [EvSetConfig example_config]) example_config
           (hass_with_input "40") "sensor.lux"); try reflexivity.
  all: vm_compute; by eauto.
Defined.

Lemma short_drag_keeps_timer_witness :
  exists v, renders (trace (run demo_mounted
              [EvSetHass (hass_with_input "41"); EvElapse 100; EvSlideStart; EvElapse 200;
               EvSlideChange "20.00"; EvElapse 500]))
            = v :: renders (trace demo_mounted).
Proof.
  eapply (short_drag_keeps_timer demo_mounted _ example_config); try reflexivity.
  apply timer_inv_reachable, run_reachable.
Defined.

Lemma end_to_end_scenario_witness :
  check_config example_config = None /\ input_entity example_config = Some "sensor.lux" /\
  output_entity example_config = Some "light.living_room" /\
  states (hass_with_input "40") !! "sensor.lux" = Some {| state := "40"; attributes := no_attributes |} /\
  calls (trace (run world_init
    [EvSetConfig example_config; EvSetHass (hass_with_input "40"); EvConnected; EvSlideStart;
     EvSlideUpdate "50.00"; EvSlideChange "50.00"]))
  = [output_service_call (is_light_entity example_config) "light.living_room"
       (calculateOutputValue example_config (parseFloat "50.00") (parseFloat "40"))].
Proof.
  refine (conj eq_refl (conj eq_refl (conj eq_refl (conj eq_refl _)))).
  exact (end_to_end_scenario example_config (hass_with_input "40") "sensor.lux" "light.living_room"
           {| state := "40"; attributes := no_attributes |} "50.00"
           eq_refl eq_refl eq_refl eq_refl).
Defined.

Lemma stale_output_entity_witness :
  let w := run world_init
             [EvSetConfig example_config; EvSetHass (hass_with_input "40"); EvConnected] in
  match view (card w) with
  | ViewSlider m =>
      hass (card w) = Some (hass_with_input "40") /\ check_config example_number_config = None /\
      states (hass_with_input "40") !! mt_input_entity m
        = Some {| state := "40"; attributes := no_attributes |} /\
      trace (run w [EvSetConfig example_number_config; EvSlideChange "50.00"]) =
        Call (output_service_call (is_light_entity example_number_config) (mt_output_entity m)
                (calculateOutputValue example_number_config (parseFloat "50.00") (parseFloat "40")))
        :: trace w
  | _ => False
  end.
Proof.
  cbv zeta. destruct (view (card _)) as [| |p|m] eqn:E; vm_compute in E; try discriminate.
  injection E as <-.
  refine (conj eq_refl (conj eq_refl (conj eq_refl _))).
  apply (stale_output_entity _ _ _ (hass_with_input "40")
           {| state := "40"; attributes := no_attributes |}); [vm_compute | ..]; reflexivity.
Defined.
