(* ===== verification/AsyncCard.v ===== *)
(** * The asynchronous render and the loading of noUiSlider

    [render()] is an [async] method: it writes the markup (lines
    117-248), then suspends at [await this.loadNoUiSlider()] (line 251)
    and only afterwards creates the slider (lines 253-277).
    [loadNoUiSlider] (lines 312-317) imports the library from a CDN
    when [window.noUiSlider] is not set.  The page holds one library for
    all its cards: [LibState] is [window.noUiSlider] together with the
    module map's entry for the import (absent, in flight, done, failed;
    a failed import stays failed, the module map caching the error).

    [AWorld] extends the world of Card.v with that state, with a
    generation counter of the shadow root's [innerHTML] (each write of
    the markup makes the previous [slider] element a detached one), and
    with the continuations suspended on the import, in call order.  The
    completion and the failure of the import are events of their own,
    which may come between any two events of the card.

    Once the library is set, the [await] resumes at the next microtask
    checkpoint, before any other event, and the render is the atomic
    [render] of Render.v, as in Card.v.  A render whose markup was
    replaced before the import completed still creates its slider, on a
    detached element; the [update] handler noUiSlider calls when it is
    bound looks up the value label in the live shadow root. *)

From S2P Require Import Prelude Config JsParse HassState ValueMapper ColorDeriver Render Card.

Local Open Scope Q_scope.

(** ** The library and the suspended renders *)

(** [window.noUiSlider] and the import of the module. *)
Inductive LibState : Type :=
| LibAbsent
| LibLoading
| LibLoaded
| LibFailed.

(** What [await this.loadNoUiSlider()] does to the render. *)
Inductive Load : Type :=
| LoadReady
| LoadAwait
| LoadReject.

(** [loadNoUiSlider()], lines 312-317: with [window.noUiSlider] set the
    promise is already resolved; otherwise [import(...)] starts the
    fetch, or joins the fetch in flight, or rejects with the cached
    failure. *)
Definition loadNoUiSlider (l : LibState) : Load * LibState :=
  match l with
  | LibLoaded => (LoadReady, LibLoaded)
  | LibAbsent | LibLoading => (LoadAwait, LibLoading)
  | LibFailed => (LoadReject, LibFailed)
  end.

(** A render suspended at line 251: the generation of the markup its
    [slider] element (line 250) belongs to, and what it captured. *)
Record Suspended : Type := {
  sp_gen : nat;
  sp_pending : Pending
}.

Record AWorld : Type := {
  world : World;
  lib : LibState;
  dom_gen : nat;
  suspended : list Suspended
}.

(** A card constructed on a page whose library is in state [l]. *)
Definition aworld_init (l : LibState) : AWorld :=
  {| world := world_init; lib := l; dom_gen := 0; suspended := [] |}.

Definition with_world (w : World) (aw : AWorld) : AWorld :=
  {| world := w; lib := lib aw; dom_gen := dom_gen aw; suspended := suspended aw |}.

(** [this.shadowRoot.innerHTML = ...]: a new generation of the markup. *)
Definition wrote (w : World) (aw : AWorld) : AWorld :=
  {| world := w; lib := lib aw; dom_gen := S (dom_gen aw); suspended := suspended aw |}.

(** The view shown and recorded; the slider value is the card's. *)
Definition show (v : View) (w : World) : World :=
  emit (Render v) (set_card (set_slider (currentSliderValue (card w)) v (card w)) w).

(** ** Operations *)

(** [this.render()], lines 117-277.  The markup is written at once.
    With the library set, the continuation runs before anything else;
    while it loads, the continuation waits for the import; when the
    import has failed, the promise [render()] returns rejects and the
    slider is never created. *)
Definition a_render (aw : AWorld) : AWorld :=
  let w := world aw in
  let c := card w in
  match render_begin (config c) (hass c) (currentSliderValue c) with
  | inl e => with_world (emit (Throw e) w) aw
  | inr None => wrote (show ViewNotFound w) aw
  | inr (Some p) =>
      match loadNoUiSlider (lib aw) with
      | (LoadReady, _) => wrote (show (ViewSlider (render_resume p (currentSliderValue c))) w) aw
      | (LoadReject, _) => wrote (emit (Throw ImportError) (show (ViewLoading p) w)) aw
      | (LoadAwait, l) =>
          {| world := show (ViewLoading p) w; lib := l; dom_gen := S (dom_gen aw);
             suspended := suspended aw ++ [{| sp_gen := S (dom_gen aw); sp_pending := p |}] |}
      end
  end.

(** The label of a markup rewritten by an [update] handler. *)
Definition relabel_pending (l : num) (u : string) (p : Pending) : Pending :=
  {| pd_color := pd_color p; pd_center_text := pd_center_text p;
     pd_background := pd_background p; pd_handle := pd_handle p;
     pd_handle_shadow := pd_handle_shadow p; pd_title := pd_title p;
     pd_icon := pd_icon p; pd_label := l; pd_unit := u; pd_min := pd_min p;
     pd_max := pd_max p; pd_step := pd_step p; pd_input_entity := pd_input_entity p;
     pd_output_entity := pd_output_entity p |}.

(** What the [update] handler of a slider built on a detached element
    does to the page when noUiSlider calls it at its binding, lines
    282-285: [this.shadowRoot.getElementById('current-value')] finds the
    label of the markup on screen, if there is one, and writes the value
    with the unit of the stale render; the bar it redraws is the detached
    one.  Without a label ([None]) the element is [null] and writing its
    [textContent] throws. *)
Definition relabel (v : num) (u : string) (vw : View) : option View :=
  match vw with
  | ViewLoading p => Some (ViewLoading (relabel_pending (num_round v) u p))
  | ViewSlider m =>
      Some (ViewSlider {| mt_color := mt_color m; mt_center_text := mt_center_text m;
                          mt_background := mt_background m; mt_handle := mt_handle m;
                          mt_handle_shadow := mt_handle_shadow m; mt_title := mt_title m;
                          mt_icon := mt_icon m; mt_label := num_round v; mt_unit := u;
                          mt_start := mt_start m; mt_min := mt_min m; mt_max := mt_max m;
                          mt_step := mt_step m; mt_connect := mt_connect m;
                          mt_input_entity := mt_input_entity m;
                          mt_output_entity := mt_output_entity m |})
  | _ => None
  end.

(** One suspended render resuming after the import, lines 253-285, at
    [this.currentSliderValue] as it is now.  When no render has written
    the markup since, its [slider] element is on screen and the slider
    is mounted there ([render_resume]).  Otherwise the slider is built
    on a detached element, and only the [update] handler noUiSlider
    calls at its binding reaches the page ([relabel]); when it throws,
    the [render()] promise rejects. *)
Definition resume (aw : AWorld) (s : Suspended) : AWorld :=
  let w := world aw in
  let v := currentSliderValue (card w) in
  if Nat.eqb (sp_gen s) (dom_gen aw)
  then with_world (show (ViewSlider (render_resume (sp_pending s) v)) w) aw
  else match relabel v (pd_unit (sp_pending s)) (view (card w)) with
       | Some vw => with_world (set_card (set_slider v vw (card w)) w) aw
       | None => with_world (emit (Throw (TypeError "current-value")) w) aw
       end.

(** The import resolves: [window.noUiSlider] is set and the suspended
    renders resume, in the order they were suspended. *)
Definition import_done (aw : AWorld) : AWorld :=
  fold_left resume (suspended aw)
    {| world := world aw; lib := LibLoaded; dom_gen := dom_gen aw; suspended := [] |}.

(** The import rejects: each suspended [render()] rejects. *)
Definition import_failed (aw : AWorld) : AWorld :=
  fold_left (fun a _ => with_world (emit (Throw ImportError) (world a)) a) (suspended aw)
    {| world := world aw; lib := LibFailed; dom_gen := dom_gen aw; suspended := [] |}.

(** The timer's callback, line 26, with the asynchronous render. *)
Definition a_timeout_callback (aw : AWorld) : AWorld :=
  if isUpdating (card (world aw)) then aw else a_render aw.

(** Time passes by [d] ms: the due timers fire, in creation order. *)
Definition a_elapse (d : N) (aw : AWorld) : AWorld :=
  fold_left (fun a _ => a_timeout_callback a) (due_timers d (world aw))
    (with_world (clock_advance d (world aw)) aw).

(** The events: those of the card, and the settling of the import. *)
Inductive AEvent : Type :=
| AEv (ev : Event)
| EvImportDone
| EvImportFailed.

(** One event, run with the microtasks it queues.  The import settles
    only while it is in flight. *)
Definition astep (aw : AWorld) (ev : AEvent) : AWorld :=
  match ev with
  | AEv EvConnected => a_render aw
  | AEv (EvElapse d) => a_elapse d aw
  | AEv ev => with_world (step (world aw) ev) aw
  | EvImportDone => match lib aw with LibLoading => import_done aw | _ => aw end
  | EvImportFailed => match lib aw with LibLoading => import_failed aw | _ => aw end
  end.

Definition arun (aw : AWorld) (evs : list AEvent) : AWorld := fold_left astep evs aw.

Definition astep_rel (aw aw' : AWorld) : Prop := exists ev, aw' = astep aw ev.

(** The worlds a card reaches from its construction, whatever the state
    of the page's library then. *)
Definition areachable (aw : AWorld) : Prop :=
  exists l, star astep_rel (aworld_init l) aw.

(** The markup a view shows without its slider, if any. *)
Definition loading_view (v : View) : option Pending :=
  match v with ViewLoading p => Some p | _ => None end.

Definition has_slider (v : View) : bool :=
  match v with ViewSlider _ => true | _ => false end.

(** Well-formedness of an asynchronous world: continuations wait only
    while the import is in flight; their generations are distinct and
    not in the future; the one of the current generation, if any, is
    the last to wait and belongs to the markup on screen, and the markup
    on screen while the import is in flight has one; no slider exists
    before the library is set. *)
Definition awf (aw : AWorld) : Prop :=
  (lib aw <> LibLoading -> suspended aw = []) /\
  NoDup (map sp_gen (suspended aw)) /\
  Forall (fun s => sp_gen s <= dom_gen aw)%nat (suspended aw) /\
  (forall s, s ∈ suspended aw -> sp_gen s = dom_gen aw ->
     last (suspended aw) = Some s /\
     loading_view (view (card (world aw))) = Some (sp_pending s)) /\
  (forall p, loading_view (view (card (world aw))) = Some p -> lib aw = LibLoading ->
     exists s, s ∈ suspended aw /\ sp_gen s = dom_gen aw /\ sp_pending s = p) /\
  (lib aw <> LibLoaded -> has_slider (view (card (world aw))) = false).

(** ** Scenarios *)

(** A card is configured, receives its [hass] object and is attached on
    a page that has not loaded the slider library yet; the resync timer
    of the [hass] update renders again while the import is in flight. *)
Definition first_load_events : list AEvent :=
  [AEv (EvSetConfig example_config); AEv (EvSetHass (hass_with_input "40"));
   AEv EvConnected; AEv (EvElapse 500)].

(** ** Well-formedness is kept *)

(** The events handled by Card.v alone keep the markup on screen, and
    keep a slider a slider. *)
Lemma step_view_frame w ev :
  ev <> EvConnected -> (forall d, ev <> EvElapse d) ->
  loading_view (view (card (step w ev))) = loading_view (view (card w)) /\
  has_slider (view (card (step w ev))) = has_slider (view (card w)).
Proof.
  intros Hc He. destruct ev as [cfg| |h|d| |s|s]; cbn [step].
  - unfold setConfig. by case_match.
  - by destruct Hc.
  - done.
  - by destruct (He d).
  - case_match eqn:E; cbn; by rewrite ?E.
  - case_match eqn:E; cbn; by rewrite ?E.
  - case_match eqn:E; cbn; rewrite ?E; try done. unfold on_change. repeat case_match; cbn; by rewrite E.
Qed.

Lemma awf_frame aw w :
  awf aw ->
  loading_view (view (card w)) = loading_view (view (card (world aw))) ->
  has_slider (view (card w)) = has_slider (view (card (world aw))) ->
  awf (with_world w aw).
Proof. unfold awf, with_world. cbn. intros (?&?&?&?&?&?) -> ->. by split_and!. Qed.

(** A write of the markup that suspends nothing. *)
Lemma awf_wrote aw w :
  awf aw ->
  (forall p, loading_view (view (card w)) = Some p -> lib aw <> LibLoading) ->
  (lib aw <> LibLoaded -> has_slider (view (card w)) = false) ->
  awf (wrote w aw).
Proof.
  unfold awf, wrote. cbn. intros (H1 & H2 & H3 & H4 & H5 & H6) Hl Hs.
  rewrite Forall_forall in H3 |- *. split_and!; try done.
  - intros s Hs'. specialize (H3 s Hs'). lia.
  - intros s Hs' Hg. specialize (H3 s Hs'). lia.
  - intros p Hp Hll. by destruct (Hl p Hp).
Qed.

(** A write of the markup whose render waits for the import. *)
Lemma awf_suspend aw w p :
  awf aw -> loading_view (view (card w)) = Some p -> has_slider (view (card w)) = false ->
  awf {| world := w; lib := LibLoading; dom_gen := S (dom_gen aw);
         suspended := suspended aw ++ [{| sp_gen := S (dom_gen aw); sp_pending := p |}] |}.
Proof.
  unfold awf. cbn. intros (H1 & H2 & H3 & H4 & H5 & H6) Hl Hs.
  rewrite Forall_forall in H3 |- *. split_and!; try done.
  - rewrite map_app. apply NoDup_app. split_and!; [done | | apply NoDup_singleton].
    intros g Hg ->%list_elem_of_singleton.
    apply list_elem_of_In, in_map_iff in Hg as (s & Hsg & Hin%list_elem_of_In).
    specialize (H3 s Hin). cbn in Hsg. lia.
  - intros s [Hin | ->%list_elem_of_singleton]%elem_of_app; cbn; [|lia].
    specialize (H3 s Hin). lia.
  - intros s [Hin | ->%list_elem_of_singleton]%elem_of_app Hg; [|split; [apply last_snoc | done]].
    specialize (H3 s Hin). lia.
  - intros p' Hp' _. rewrite Hl in Hp'. injection Hp' as <-.
    eexists. split_and!; [apply elem_of_app; right; by apply list_elem_of_singleton | done | done].
Qed.

Lemma awf_a_render aw : awf aw -> awf (a_render aw).
Proof.
  intros Hwf. unfold a_render.
  destruct (render_begin _ _ _) as [e|[p|]]; [by apply awf_frame | | by apply awf_wrote].
  destruct (lib aw) eqn:El; cbn.
  - by apply awf_suspend.
  - by apply awf_suspend.
  - apply awf_wrote; [done | done | by intros []].
  - apply awf_wrote; [done | rewrite El; by intros _ _ | done].
Qed.

Lemma awf_fire (l : list (nat * Z)) aw :
  awf aw -> awf (fold_left (fun a _ => a_timeout_callback a) l aw).
Proof.
  revert aw. induction l as [|x l IH]; intros aw Hwf; [done|]. cbn.
  apply IH. unfold a_timeout_callback. case_match; [done | by apply awf_a_render].
Qed.

(** Settled worlds: nothing waits and the import is not in flight. *)
Lemma awf_settled aw :
  suspended aw = [] -> lib aw <> LibLoading ->
  (lib aw <> LibLoaded -> has_slider (view (card (world aw))) = false) -> awf aw.
Proof.
  unfold awf. intros -> Hl Hs. cbn.
  split_and!; solve [done | constructor | by intros ? ?%elem_of_nil].
Qed.

(** Resuming leaves the library, the generation and the queue alone. *)
Lemma resume_fold_meta (l : list Suspended) a :
  let a' := fold_left resume l a in
  lib a' = lib a /\ dom_gen a' = dom_gen a /\ suspended a' = suspended a.
Proof.
  revert a. induction l as [|s l IH]; intros a; [done|]. cbn.
  destruct (IH (resume a s)) as (-> & -> & ->). unfold resume. cbv zeta. by repeat case_match.
Qed.

(** Rejecting the suspended renders only records the errors. *)
Lemma reject_fold_meta (l : list Suspended) a :
  let a' := fold_left (fun a _ => with_world (emit (Throw ImportError) (world a)) a) l a in
  lib a' = lib a /\ suspended a' = suspended a /\ card (world a') = card (world a) /\
  calls (trace (world a')) = calls (trace (world a)).
Proof.
  revert a. induction l as [|s l IH]; intros a; [done|]. cbn.
  by destruct (IH (with_world (emit (Throw ImportError) (world a)) a)) as (-> & -> & -> & ->).
Qed.

Lemma awf_astep aw ev : awf aw -> awf (astep aw ev).
Proof.
  intros Hwf. destruct ev as [ev| |].
  - destruct ev as [cfg| |h|d| |s|s]; cbn [astep];
      try match goal with
      | |- awf (with_world (step _ ?e) _) =>
          destruct (step_view_frame (world aw) e ltac:(discriminate) ltac:(discriminate))
            as [E1 E2]; by apply awf_frame
      end.
    + by apply awf_a_render.
    + unfold a_elapse. apply awf_fire, awf_frame; done.
  - cbn. destruct (lib aw) eqn:El; try done. unfold import_done.
    destruct (resume_fold_meta (suspended aw)
                {| world := world aw; lib := LibLoaded; dom_gen := dom_gen aw; suspended := [] |})
      as (Hl & _ & Hs).
    apply awf_settled; rewrite ?Hl, ?Hs; done.
  - cbn. destruct (lib aw) eqn:El; try done. unfold import_failed.
    destruct (reject_fold_meta (suspended aw)
                {| world := world aw; lib := LibFailed; dom_gen := dom_gen aw; suspended := [] |})
      as (Hl & Hs & Hc & _).
    apply awf_settled; rewrite ?Hl, ?Hs, ?Hc; try done.
    intros _. apply Hwf. by rewrite El.
Qed.

Lemma awf_init l : awf (aworld_init l).
Proof. unfold awf. cbn. split_and!; solve [done | constructor | by intros ? ?%elem_of_nil]. Qed.

Lemma areachable_awf aw : areachable aw -> awf aw.
Proof.
  intros [l Hr]. refine (star_invariant _ awf _ _ _ (awf_init l) Hr).
  intros x y Hx [ev ->]. by apply awf_astep.
Qed.

(** ** Completion and failure of the import *)

Lemma gen_in (s : Suspended) (l : list Suspended) : s ∈ l -> sp_gen s ∈ map sp_gen l.
Proof. intros H. apply list_elem_of_In, in_map, list_elem_of_In, H. Qed.

Lemma resume_current a s :
  sp_gen s = dom_gen a ->
  resume a s = with_world (show (ViewSlider (render_resume (sp_pending s)
                                   (currentSliderValue (card (world a))))) (world a)) a.
Proof. intros H. unfold resume. cbv zeta. by rewrite H, Nat.eqb_refl. Qed.

(** Continuations of earlier markups, while a markup without its
    slider is on screen, only rewrite its label: the view shown next
    replaces it entirely. *)
Lemma resume_stale_loading (l : list Suspended) a :
  (forall s, s ∈ l -> sp_gen s <> dom_gen a) ->
  is_Some (loading_view (view (card (world a)))) ->
  let a' := fold_left resume l a in
  dom_gen a' = dom_gen a /\
  currentSliderValue (card (world a')) = currentSliderValue (card (world a)) /\
  forall vw, show vw (world a') = show vw (world a).
Proof.
  revert a. induction l as [|s l IH]; intros a Hl Hv; cbv zeta; [done|]. cbn [fold_left].
  destruct Hv as [q Hq]. destruct (view (card (world a))) as [| |p|m] eqn:Ev; try discriminate.
  set (v := currentSliderValue (card (world a))).
  set (a1 := with_world (set_card (set_slider v (ViewLoading (relabel_pending (num_round v)
                           (pd_unit (sp_pending s)) p)) (card (world a))) (world a)) a).
  assert (E : resume a s = a1).
  { unfold resume. cbv zeta. rewrite (proj2 (Nat.eqb_neq _ _)) by (apply Hl; constructor).
    by rewrite Ev. }
  rewrite E. destruct (IH a1) as (-> & -> & Hshow).
  - intros s' Hs'. apply Hl. by constructor.
  - by eexists.
  - split_and!; [done | done |]. intros vw. by rewrite Hshow.
Qed.

(** Continuations of earlier markups, while the placeholder is on
    screen, find no label and throw. *)
Lemma resume_stale_nolabel (l : list Suspended) a :
  (forall s, s ∈ l -> sp_gen s <> dom_gen a) ->
  loading_view (view (card (world a))) = None -> has_slider (view (card (world a))) = false ->
  world (fold_left resume l a) =
    fold_left (fun w _ => emit (Throw (TypeError "current-value")) w) l (world a).
Proof.
  revert a. induction l as [|s l IH]; intros a Hl Hv Hs; [done|]. cbn [fold_left].
  assert (E : resume a s = with_world (emit (Throw (TypeError "current-value")) (world a)) a).
  { unfold resume. cbv zeta. rewrite (proj2 (Nat.eqb_neq _ _)) by (apply Hl; constructor).
    by destruct (view (card (world a))). }
  rewrite E. apply IH; [|done|done]. intros s' Hs'. apply Hl. by constructor.
Qed.

(** The import completes: only the continuation of the markup on screen
    mounts its slider, at the value the card holds now; over the
    placeholder, every continuation throws. *)
Lemma import_done_world aw :
  awf aw -> lib aw = LibLoading ->
  world (import_done aw) =
    match loading_view (view (card (world aw))) with
    | Some p => show (ViewSlider (render_resume p (currentSliderValue (card (world aw))))) (world aw)
    | None => fold_left (fun w _ => emit (Throw (TypeError "current-value")) w)
                (suspended aw) (world aw)
    end.
Proof.
  intros (H1 & H2 & H3 & H4 & H5 & H6) Hl. unfold import_done.
  set (a0 := {| world := world aw; lib := LibLoaded; dom_gen := dom_gen aw; suspended := [] |}).
  destruct (loading_view (view (card (world aw)))) as [p|] eqn:Ev.
  - destruct (H5 p eq_refl Hl) as (s & Hs & Hg & <-).
    destruct (H4 s Hs Hg) as [(l1 & Hsplit)%last_Some _].
    rewrite Hsplit in H2 |- *. rewrite map_app in H2. cbn [map] in H2.
    apply NoDup_app in H2 as (_ & Hdis & _).
    rewrite fold_left_app. cbn [fold_left].
    destruct (resume_stale_loading l1 a0) as (Hgen & Hcur & Hshow).
    { intros s' Hs' E. cbn in E. apply (Hdis (sp_gen s')); [by apply gen_in|].
      rewrite E, <- Hg. constructor. }
    { cbn. by rewrite Ev. }
    rewrite resume_current by (by rewrite Hgen). cbn [world]. by rewrite Hcur, Hshow.
  - rewrite (resume_stale_nolabel (suspended aw) a0); [done| |done|apply H6; by rewrite Hl].
    intros s Hs Hg. destruct (H4 s Hs Hg) as [_ ?]. congruence.
Qed.

(** Renders never write to Home Assistant. *)
Lemma a_render_calls a : calls (trace (world (a_render a))) = calls (trace (world a)).
Proof.
  unfold a_render. destruct (render_begin _ _ _) as [e|[p|]]; [done| |done].
  by destruct (loadNoUiSlider (lib a)) as [[] ?].
Qed.

Lemma a_render_failed a : lib a = LibFailed -> lib (a_render a) = LibFailed.
Proof. intros Hl. unfold a_render. destruct (render_begin _ _ _) as [e|[p|]]; by rewrite ?Hl. Qed.

Lemma failed_fire (l : list (nat * Z)) a :
  lib a = LibFailed ->
  let a' := fold_left (fun a _ => a_timeout_callback a) l a in
  calls (trace (world a')) = calls (trace (world a)) /\ lib a' = LibFailed.
Proof.
  revert a. induction l as [|x l IH]; intros a Hl; [done|]. cbn.
  assert (Hc : calls (trace (world (a_timeout_callback a))) = calls (trace (world a)) /\
               lib (a_timeout_callback a) = LibFailed).
  { unfold a_timeout_callback. case_match; [done|].
    split; [apply a_render_calls | by apply a_render_failed]. }
  destruct Hc as [Hc Hl']. destruct (IH _ Hl') as [-> ->]. by rewrite Hc.
Qed.

(** After a failed import no event writes: the card has no slider. *)
Lemma failed_step_quiet a ev :
  awf a -> lib a = LibFailed ->
  calls (trace (world (astep a ev))) = calls (trace (world a)) /\ lib (astep a ev) = LibFailed.
Proof.
  intros Hwf Hl.
  assert (Hsl : has_slider (view (card (world a))) = false) by (apply Hwf; by rewrite Hl).
  destruct ev as [ev| |]; cbn [astep]; rewrite ?Hl; [|done|done].
  destruct ev as [cfg| |h|d| |s|s]; cbn [astep step].
  - unfold setConfig. by case_match.
  - split; [apply a_render_calls | by apply a_render_failed].
  - done.
  - unfold a_elapse. by apply (failed_fire _ (with_world (clock_advance d (world a)) a)).
  - by destruct (view (card (world a))).
  - by destruct (view (card (world a))).
  - by destruct (view (card (world a))).
Qed.

Lemma arun_areachable l evs : areachable (arun (aworld_init l) evs).
Proof.
  exists l. assert (Hgen : forall a, star astep_rel (aworld_init l) a ->
                            star astep_rel (aworld_init l) (arun a evs)).
  { induction evs as [|ev evs IH]; intros a Ha; [done|]. cbn.
    apply IH. eapply star_right; [done | by eexists]. }
  apply Hgen. constructor.
Qed.

(** ** Theorems *)

(** C9: When the import completes, the render whose markup is on
    screen, and no other, creates its slider: the view becomes that
    markup's slider started at the value the card holds at that
    moment, with exactly one render effect; when the markup on screen
    is not a waiting render's (a placeholder written since), nothing
    visible changes.  The library is then set and nothing waits. *)
Theorem import_done_mounts_current (aw : AWorld) :
  areachable aw -> lib aw = LibLoading ->
  let aw' := astep aw EvImportDone in
  world aw' = match loading_view (view (card (world aw))) with
              | Some p => show (ViewSlider (render_resume p (currentSliderValue (card (world aw)))))
                               (world aw)
              | None => fold_left (fun w _ => emit (Throw (TypeError "current-value")) w)
                          (suspended aw) (world aw)
              end /\
  lib aw' = LibLoaded /\ suspended aw' = [].
Proof.
  intros Hr Hl. cbn [astep]. rewrite Hl. split; [by apply import_done_world; [apply areachable_awf|] |].
  unfold import_done.
  by destruct (resume_fold_meta (suspended aw)
                 {| world := world aw; lib := LibLoaded; dom_gen := dom_gen aw; suspended := [] |})
    as (-> & _ & ->).
Qed.

(** C10: Once the import of the library has failed, the failure is
    final: no later event creates a slider, and the card never writes
    to Home Assistant again. *)
Theorem failed_import_never_writes (aw : AWorld) (evs : list AEvent) :
  areachable aw -> lib aw = LibFailed ->
  calls (trace (world (arun aw evs))) = calls (trace (world aw)) /\
  lib (arun aw evs) = LibFailed /\ has_slider (view (card (world (arun aw evs)))) = false.
Proof.
  intros Hr%areachable_awf. revert aw Hr. induction evs as [|ev evs IH]; intros aw Hwf Hl.
  - split_and!; [done | done | apply Hwf; by rewrite Hl].
  - change (arun aw (ev :: evs)) with (arun (astep aw ev) evs). destruct (failed_step_quiet aw ev Hwf Hl) as [Hc Hl'].
    destruct (IH _ (awf_astep _ _ Hwf) Hl') as (-> & ? & ?). by rewrite Hc.
Qed.

(** ** Witnesses *)

Lemma import_done_mounts_current_witness :
  let aw := arun (aworld_init LibAbsent) first_load_events in
  areachable aw /\ lib aw = LibLoading /\
  (let aw' := astep aw EvImportDone in
   world aw' = match loading_view (view (card (world aw))) with
               | Some p => show (ViewSlider (render_resume p (currentSliderValue (card (world aw)))))
                                (world aw)
               | None => fold_left (fun w _ => emit (Throw (TypeError "current-value")) w)
                           (suspended aw) (world aw)
               end /\
   lib aw' = LibLoaded /\ suspended aw' = []).
Proof.
  assert (Hr := arun_areachable LibAbsent first_load_events).
  assert (Hl : lib (arun (aworld_init LibAbsent) first_load_events) = LibLoading)
    by (vm_compute; reflexivity).
  exact (conj Hr (conj Hl (import_done_mounts_current _ Hr Hl))).
Defined.

Lemma failed_import_never_writes_witness :
  let aw := arun (aworld_init LibAbsent) (first_load_events ++ [EvImportFailed]) in
  let evs := [AEv (EvElapse 500); AEv EvConnected] in
  areachable aw /\ lib aw = LibFailed /\
  (calls (trace (world (arun aw evs))) = calls (trace (world aw)) /\
   lib (arun aw evs) = LibFailed /\ has_slider (view (card (world (arun aw evs)))) = false).
Proof.
  assert (Hr := arun_areachable LibAbsent (first_load_events ++ [EvImportFailed])).
  assert (Hl : lib (arun (aworld_init LibAbsent) (first_load_events ++ [EvImportFailed]))
               = LibFailed) by (vm_compute; reflexivity).
  exact (conj Hr (conj Hl (failed_import_never_writes _ _ Hr Hl))).
Defined.
